(** * arXiv CS Daily: a shallow embedding of the list view and the detail view

    The development follows the two scripts of the client:
    - the list view (constants [ARXIV_API_BASE], [CATEGORY_MAP], the functions
      [loadPapersForToday], [parseArxivResponse], [renderPaperList],
      [filterByCategory], [getSamplePapers]);
    - the detail view, [output/js/detail.js] ([fetchPaperDetails],
      [displaySamplePaperDetails], [generateBibtex],
      [generateStandardCitation]).

    JavaScript strings are [string], arrays are [list], objects used as
    dictionaries are [gmap string _] (or association lists where the order of
    the keys is observable), exceptions are an explicit completion type, and
    the browser (network, XML parser, JSON reader, clock) is a record of
    functions passed to the code that calls it. *)

From Stdlib Require Import String Ascii List ZArith Bool Lia Sorted Permutation DecimalString.
From stdpp Require Import gmap strings.
Import ListNotations.
Local Open Scope string_scope.

(* ===================================================================== *)
(** ** JavaScript values used by the scripts *)
(* ===================================================================== *)

Module JS.

(** [s.split(sep)] for a one-character separator: never empty. *)
Fixpoint split (sep : ascii) (s : string) : list string :=
  match s with
  | EmptyString => [EmptyString]
  | String c s' =>
      if Ascii.eqb c sep then EmptyString :: split sep s'
      else match split sep s' with
           | [] => [String c EmptyString]
           | seg :: rest => String c seg :: rest
           end
  end.

(** [arr.join(sep)]. *)
Fixpoint join (sep : string) (arr : list string) : string :=
  match arr with
  | [] => EmptyString
  | [x] => x
  | x :: rest => String.append x (String.append sep (join sep rest))
  end.

(** [arr.pop()]: the removed last element ([None] is [undefined], on an empty
    array) and the array it leaves behind. *)
Fixpoint pop {A} (arr : list A) : option A * list A :=
  match arr with
  | [] => (None, [])
  | [x] => (Some x, [])
  | x :: rest => let (l, rest') := pop rest in (l, x :: rest')
  end.

(** [s.startsWith(p)]. *)
Definition startsWith (p s : string) : bool := String.prefix p s.

(** [s.includes(p)]. *)
Fixpoint includes (p s : string) : bool :=
  String.prefix p s ||
  match s with
  | EmptyString => false
  | String _ s' => includes p s'
  end.

(** White space removed by [trim]. A character of a [string] is a code unit
    below 256; of the white space and line terminators of the language those
    are 9 to 13, the space (32) and the no-break space (160). *)
Definition isWhiteSpace (c : ascii) : bool :=
  let n := nat_of_ascii c in
  (Nat.leb 9 n && Nat.leb n 13) || Nat.eqb n 32 || Nat.eqb n 160.

Fixpoint trimStart (s : string) : string :=
  match s with
  | EmptyString => EmptyString
  | String c s' => if isWhiteSpace c then trimStart s' else s
  end.

Fixpoint trimEnd (s : string) : string :=
  match s with
  | EmptyString => EmptyString
  | String c s' =>
      match trimEnd s' with
      | EmptyString => if isWhiteSpace c then EmptyString else String c EmptyString
      | t => String c t
      end
  end.

(** [s.trim()]. *)
Definition trim (s : string) : string := trimEnd (trimStart s).

(** Truthiness of a string: only the empty string is falsy. *)
Definition truthy (s : string) : bool := negb (String.eqb s EmptyString).

(** [v || d] where [v] is a string or [undefined]/[null] ([None]). *)
Definition or_else (v : option string) (d : string) : string :=
  match v with
  | Some s => if truthy s then s else d
  | None => d
  end.

(** [!data] for [let data;] later assigned a string. *)
Definition falsy (data : option string) : bool :=
  match data with
  | Some s => negb (truthy s)
  | None => true
  end.

(** Exceptions the scripts can meet. *)
Inductive Exn : Type :=
| TypeError (msg : string)
| RangeError (msg : string)
| SyntaxError (msg : string)
| Error (msg : string).

(** [error.message]. *)
Definition message (e : Exn) : string :=
  match e with
  | TypeError m | RangeError m | SyntaxError m | Error m => m
  end.

(** The outcome of evaluating code that may throw. *)
Inductive Completion (A : Type) : Type :=
| Normal (a : A)
| Throw (e : Exn).
Arguments Normal {A} a.
Arguments Throw {A} e.

Definition bind {A B} (c : Completion A) (k : A -> Completion B) : Completion B :=
  match c with
  | Normal a => k a
  | Throw e => Throw e
  end.

(** [arr.map(f)] / [arr.forEach(f)] with a callback that may throw: the
    callbacks run in index order and the first exception ends the traversal. *)
Fixpoint mapM {A B} (f : A -> Completion B) (arr : list A) : Completion (list B) :=
  match arr with
  | [] => Normal []
  | x :: rest =>
      bind (f x) (fun y => bind (mapM f rest) (fun ys => Normal (y :: ys)))
  end.

(** The names every object inherits from [Object.prototype]. For an object
    without an own property of that name, [obj[key]] is the inherited member:
    a function or, for [__proto__], the prototype itself; it is truthy, and
    none of the properties the scripts read from a paper is defined on it. *)
Definition objectPrototypeKeys : list string := [
  "constructor"; "hasOwnProperty"; "isPrototypeOf"; "propertyIsEnumerable";
  "toLocaleString"; "toString"; "valueOf"; "__proto__";
  "__defineGetter__"; "__defineSetter__"; "__lookupGetter__"; "__lookupSetter__" ].

Definition inherited (key : string) : bool :=
  existsb (String.eqb key) objectPrototypeKeys.

(** [arr.sort(comparefn)] for a comparator that returns a number or NaN
    ([None]): NaN counts as [+0], and the sort is stable. For a consistent
    comparator every conforming engine returns this list. For a comparator
    that is not consistent (one that returns NaN for some pairs only) the
    language leaves the order to the engine: this is then one permutation
    among those an engine may return, and statements about the order it
    yields assume valid dates. *)
Section Sort.
Context {A : Type} (comparefn : A -> A -> option Z).

Definition keepsBefore (x y : A) : bool :=
  match comparefn x y with
  | Some v => (v <=? 0)%Z
  | None => true
  end.

Fixpoint insert (x : A) (sorted : list A) : list A :=
  match sorted with
  | [] => [x]
  | y :: rest => if keepsBefore x y then x :: sorted else y :: insert x rest
  end.

Definition sort (arr : list A) : list A := fold_right insert [] arr.
End Sort.

End JS.

(** Completions form a monad; stdpp's [x ← c; k] sequences them. *)
#[global] Instance completion_ret : MRet JS.Completion := fun A a => JS.Normal a.
#[global] Instance completion_bind : MBind JS.Completion :=
  fun A B k c => JS.bind c k.

(* ===================================================================== *)
(** ** The document tree returned by the XML parser *)
(* ===================================================================== *)

Module Dom.

(** Element and text nodes of a document whose elements carry no namespace
    prefix, as the Atom elements both scripts look for: the tag is the local
    name and the qualified name at once, so a type selector (which goes by
    local name) and [getElementsByTagName] (which goes by qualified name)
    find the same elements. Prefixed elements are outside the model. *)
#[warnings="-register-all"]
Inductive Node : Type :=
| Element (tag : string) (attrs : list (string * string)) (children : list Node)
| Text (data : string).

(** The document node and its children (the root element among them). *)
Record Document : Type := { childNodes : list Node }.

(** The selectors the scripts use: [tag] and [tag[attr="value"]]. *)
Inductive Selector : Type :=
| ByTag (tag : string)
| ByTagAttr (tag attr value : string).

(** Proper descendants of a node, in document order. *)
Fixpoint descendants (n : Node) : list Node :=
  match n with
  | Element _ _ kids => flat_map (fun k => k :: descendants k) kids
  | Text _ => []
  end.

Definition documentNodes (d : Document) : list Node :=
  flat_map (fun k => k :: descendants k) (childNodes d).

Definition tagName (n : Node) : option string :=
  match n with
  | Element t _ _ => Some t
  | Text _ => None
  end.

Fixpoint lookupAttr (name : string) (attrs : list (string * string)) : option string :=
  match attrs with
  | [] => None
  | (k, v) :: rest => if String.eqb k name then Some v else lookupAttr name rest
  end.

(** [el.getAttribute(name)]; [None] is [null]. *)
Definition getAttribute (name : string) (n : Node) : option string :=
  match n with
  | Element _ attrs _ => lookupAttr name attrs
  | Text _ => None
  end.

Definition hasTag (t : string) (n : Node) : bool :=
  match n with
  | Element t' _ _ => String.eqb t' t
  | Text _ => false
  end.

Definition matches (sel : Selector) (n : Node) : bool :=
  match sel with
  | ByTag t => hasTag t n
  | ByTagAttr t a v =>
      hasTag t n &&
      match getAttribute a n with
      | Some v' => String.eqb v' v
      | None => false
      end
  end.

(** [el.querySelectorAll(sel)] and [el.querySelector(sel)]. *)
Definition querySelectorAll (sel : Selector) (n : Node) : list Node :=
  List.filter (matches sel) (descendants n).

Definition querySelector (sel : Selector) (n : Node) : option Node :=
  List.hd_error (querySelectorAll sel n).

(** [el.getElementsByTagName(t)], on elements without a prefix. *)
Definition getElementsByTagName (t : string) (n : Node) : list Node :=
  List.filter (hasTag t) (descendants n).

(** The same queries on the document node. *)
Definition docQuerySelectorAll (sel : Selector) (d : Document) : list Node :=
  List.filter (matches sel) (documentNodes d).

Definition docGetElementsByTagName (t : string) (d : Document) : list Node :=
  List.filter (hasTag t) (documentNodes d).

(** [node.textContent]: the text of all descendants, in document order. *)
Fixpoint textContent (n : Node) : string :=
  match n with
  | Element _ _ kids =>
      fold_right (fun k acc => String.append (textContent k) acc) EmptyString kids
  | Text s => s
  end.

End Dom.

(* ===================================================================== *)
(** ** The static asset [data/sample-papers.json] *)
(* ===================================================================== *)

Module Sample.

(** One record of the asset, as both scripts read it. *)
Record Paper : Type := {
  id : string;
  title : string;
  published : string;
  summary : string;
  categories : list string;
  authors : list string;
  pdfLink : string
}.

(** The parsed asset: [samplePapers] is an object keyed by id (its keys in
    insertion order, the order [Object.values] follows), [defaultSamplePaper]
    one more record. A property the file lacks is [None] ([undefined]). *)
Record Data : Type := {
  samplePapers : option (list (string * Paper));
  defaultSamplePaper : option Paper
}.

(** [obj[key]] on the keyed object. *)
Fixpoint lookup (key : string) (obj : list (string * Paper)) : option Paper :=
  match obj with
  | [] => None
  | (k, v) :: rest => if String.eqb k key then Some v else lookup key rest
  end.

End Sample.

(* ===================================================================== *)
(** ** The browser the scripts run in *)
(* ===================================================================== *)

(** What [await fetch(url)] followed by [await response.text()] gives: a
    rejected promise, or a status and a body. *)
Inductive FetchResult : Type :=
| NetworkError (e : JS.Exn)
| Response (status : Z) (body : string).

(** [response.ok]: the status is in the range 200-299. *)
Definition ok (status : Z) : bool := (200 <=? status)%Z && (status <=? 299)%Z.

(** The platform functions the scripts call. *)
Record Browser : Type := {
  (** [fetch(url, ...)], awaited *)
  fetch : string -> FetchResult;
  (** [new DOMParser().parseFromString(text, 'text/xml')]; on text that is not
      well-formed it returns a document holding a [parsererror] element *)
  parseFromString : string -> Dom.Document;
  (** [response.json()] on a body; [None] when the promise rejects *)
  json : string -> option Sample.Data;
  (** [encodeURIComponent] *)
  encodeURIComponent : string -> string;
  (** the time value of [new Date(s)]; [None] is NaN (Invalid Date) *)
  dateValue : string -> option Z;
  (** [Date.prototype.toISOString] on a valid time value *)
  toISOString : Z -> string;
  (** [Date.prototype.getFullYear] on a valid time value, in the local zone *)
  getFullYear : Z -> Z;
  (** [Date.prototype.toLocaleDateString] *)
  toLocaleDateString : option Z -> string
}.

(** A number, or NaN, inside a template literal. *)
Definition showNumber (n : option Z) : string :=
  match n with
  | Some z => NilZero.string_of_int (Z.to_int z)
  | None => "NaN"
  end.

(** The variables of a proxy loop when it ends, [data] and [lastError], and
    the URLs handed to [fetch], in the order of the calls. *)
Record Attempts : Type := {
  data : option string;
  lastError : option JS.Exn;
  requested : list string
}.

Definition noAttempts : Attempts :=
  {| data := None; lastError := None; requested := [] |}.

(** [new Error(`Proxy ${i + 1} failed with status ${response.status}`)],
    [n] being [i + 1]. *)
Definition proxyFailed (n : nat) (status : Z) : JS.Exn :=
  JS.Error ("Proxy " ++ showNumber (Some (Z.of_nat n))
            ++ " failed with status " ++ showNumber (Some status)).

(* ===================================================================== *)
(** ** The list view *)
(* ===================================================================== *)

Module ListView.

Definition ARXIV_API_BASE : string := "https://export.arxiv.org/api/query".

Definition CATEGORY_MAP : gmap string string :=
  list_to_map [
    ("cs.AI", "Artificial Intelligence");
    ("cs.CL", "Computation and Language");
    ("cs.CC", "Computational Complexity");
    ("cs.CE", "Computational Engineering, Finance, and Science");
    ("cs.CG", "Computational Geometry");
    ("cs.GT", "Computer Science and Game Theory");
    ("cs.CV", "Computer Vision and Pattern Recognition");
    ("cs.CY", "Computers and Society");
    ("cs.CR", "Cryptography and Security");
    ("cs.DS", "Data Structures and Algorithms");
    ("cs.DB", "Databases");
    ("cs.DL", "Digital Libraries");
    ("cs.DM", "Discrete Mathematics");
    ("cs.DC", "Distributed, Parallel, and Cluster Computing");
    ("cs.ET", "Emerging Technologies");
    ("cs.FL", "Formal Languages and Automata Theory");
    ("cs.GL", "General Literature");
    ("cs.GR", "Graphics");
    ("cs.AR", "Hardware Architecture");
    ("cs.HC", "Human-Computer Interaction");
    ("cs.IR", "Information Retrieval");
    ("cs.IT", "Information Theory");
    ("cs.LG", "Machine Learning");
    ("cs.LO", "Logic in Computer Science");
    ("cs.MS", "Mathematical Software");
    ("cs.MA", "Multiagent Systems");
    ("cs.MM", "Multimedia");
    ("cs.NI", "Networking and Internet Architecture");
    ("cs.NE", "Neural and Evolutionary Computing");
    ("cs.NUM", "Numerical Analysis");
    ("cs.OS", "Operating Systems");
    ("cs.OH", "Other");
    ("cs.PF", "Performance");
    ("cs.PL", "Programming Languages");
    ("cs.RO", "Robotics");
    ("cs.SI", "Social and Information Networks");
    ("cs.SE", "Software Engineering");
    ("cs.SD", "Sound");
    ("cs.SC", "Symbolic Computation");
    ("cs.SY", "Systems and Control")
  ].

Record Author : Type := { name : string; affiliation : string }.

(** The objects [parseArxivResponse] pushes and [renderPaperList] reads. *)
Record Paper : Type := {
  id : string;
  title : string;
  published : string;
  updated : string;
  summary : string;
  categories : list string;
  authors : list Author;
  pdfLink : string
}.

(** [.filter(term => term.startsWith('cs.'))] over the values of
    [getAttribute('term')]: on [null] the method call throws. *)
Fixpoint filterCsTerms (terms : list (option string)) : JS.Completion (list string) :=
  match terms with
  | [] => JS.Normal []
  | None :: _ =>
      JS.Throw (JS.TypeError "Cannot read properties of null (reading 'startsWith')")
  | Some term :: rest =>
      kept ← filterCsTerms rest;
      JS.Normal (if JS.startsWith "cs." term then term :: kept else kept)
  end.

(** The text of the first descendant with the given tag, [None] when
    [querySelector] finds none ([?.] then yields [undefined]). *)
Definition fieldText (tag : string) (entry : Dom.Node) : option string :=
  Dom.textContent <$> Dom.querySelector (Dom.ByTag tag) entry.

(** The body of the [entries.forEach] callback. *)
Definition parseEntry (entry : Dom.Node) : JS.Completion Paper :=
  let id := JS.or_else
    (fieldText "id" entry ≫= fun text => fst (JS.pop (JS.split "/" text))) "" in
  let title := JS.or_else (JS.trim <$> fieldText "title" entry) "" in
  let published := JS.or_else (fieldText "published" entry) "" in
  let updated := JS.or_else (fieldText "updated" entry) "" in
  let summary := JS.or_else (JS.trim <$> fieldText "summary" entry) "" in
  categories ← filterCsTerms
    (map (Dom.getAttribute "term") (Dom.querySelectorAll (Dom.ByTag "category") entry));
  let authors := map (fun author =>
    {| name := JS.or_else (fieldText "name" author) ""; affiliation := "" |})
    (Dom.querySelectorAll (Dom.ByTag "author") entry) in
  let pdfLink := JS.or_else
    (Dom.querySelector (Dom.ByTagAttr "link" "title" "pdf") entry
       ≫= Dom.getAttribute "href") "" in
  JS.Normal {| id := id; title := title; published := published;
               updated := updated; summary := summary; categories := categories;
               authors := authors; pdfLink := pdfLink |}.

(** The traversal of an already parsed document. *)
Definition parseArxivDocument (xmlDoc : Dom.Document) : JS.Completion (list Paper) :=
  JS.mapM parseEntry (Dom.docQuerySelectorAll (Dom.ByTag "entry") xmlDoc).

Definition parseArxivResponse (B : Browser) (xmlText : string) : JS.Completion (list Paper) :=
  parseArxivDocument (parseFromString B xmlText).

(** *** The page: the two globals and the elements the script writes to *)

(** What [papers-container] shows: the markup as served, the "no papers"
    paragraph, one [paper-item] per paper, or the error paragraph. *)
Inductive Content : Type :=
| Served
| NoPapersFound
| PaperItems (papers : list Paper)
| ErrorMessage (message : string).

(** [currentCategory], [papersData], and the two elements looked up by id
    ([None]: [getElementById] returns [null]). *)
Record State : Type := {
  currentCategory : string;
  papersData : list Paper;
  papersContainer : option Content;
  loadingIndicator : option bool
}.

Definition showLoadingIndicator (show : bool) (st : State) : State :=
  match loadingIndicator st with
  | Some _ =>
      {| currentCategory := currentCategory st; papersData := papersData st;
         papersContainer := papersContainer st; loadingIndicator := Some show |}
  | None => st
  end.

Definition setContainer (c : Content) (st : State) : State :=
  {| currentCategory := currentCategory st; papersData := papersData st;
     papersContainer := Some c; loadingIndicator := loadingIndicator st |}.

Definition setPapersData (papers : list Paper) (st : State) : State :=
  {| currentCategory := currentCategory st; papersData := papers;
     papersContainer := papersContainer st; loadingIndicator := loadingIndicator st |}.

Definition showError (message : string) (st : State) : State :=
  match papersContainer st with
  | Some _ => setContainer (ErrorMessage message) st
  | None => st
  end.

(** [(a, b) => new Date(b.published) - new Date(a.published)]. *)
Definition byPublishedDesc (B : Browser) (a b : Paper) : option Z :=
  match dateValue B (published b), dateValue B (published a) with
  | Some tb, Some ta => Some (tb - ta)%Z
  | _, _ => None
  end.

(** [paper.categories.includes(currentCategory)]. *)
Definition inCategory (category : string) (paper : Paper) : bool :=
  existsb (String.eqb category) (categories paper).

(** [renderPaperList(papers)]. The result carries the array [papers] as the
    call leaves it: under category 'all' [filteredPapers] is the argument
    itself, which [sort] reorders in place. *)
Definition renderPaperList (B : Browser) (papers : list Paper) (st : State)
  : list Paper * State :=
  match papersContainer st with
  | None => (papers, st)
  | Some _ =>
      let all := String.eqb (currentCategory st) "all" in
      let filteredPapers :=
        if all then papers else List.filter (inCategory (currentCategory st)) papers in
      if Nat.eqb (length filteredPapers) 0 then (papers, setContainer NoPapersFound st)
      else
        let sorted := JS.sort (byPublishedDesc B) filteredPapers in
        (if all then sorted else papers, setContainer (PaperItems sorted) st)
  end.

(** [renderPaperList(papersData)]: every caller passes the global array. *)
Definition renderPapersData (B : Browser) (st : State) : State :=
  let (papers, st') := renderPaperList B (papersData st) st in
  setPapersData papers st'.

Definition filterByCategory (B : Browser) (category : string) (st : State) : State :=
  renderPapersData B
    {| currentCategory := category; papersData := papersData st;
       papersContainer := papersContainer st; loadingIndicator := loadingIndicator st |}.

(** The papers a container content lists. *)
Definition shownPapers (c : option Content) : list Paper :=
  match c with
  | Some (PaperItems papers) => papers
  | _ => []
  end.

(** *** The fallback data *)

(** The array [getSamplePapers] returns from its [catch] block. *)
Definition literalSamplePapers : list Paper := [
  {| id := "2401.12345";
     title := "Sample Paper: Advances in Machine Learning";
     published := "2024-01-01T00:00:00Z";
     updated := "2024-01-01T00:00:00Z";
     summary := "This is a sample paper demonstrating the capabilities of the arXiv CS Daily application.";
     categories := ["cs.LG"; "cs.AI"];
     authors := [ {| name := "John Doe"; affiliation := "University of Example" |};
                  {| name := "Jane Smith"; affiliation := "Tech Institute" |} ];
     pdfLink := "https://arxiv.org/pdf/2401.12345.pdf" |} ].

(** [new Date(s).toISOString()]: a RangeError on an invalid date. *)
Definition isoString (B : Browser) (s : string) : JS.Completion string :=
  match dateValue B s with
  | Some t => JS.Normal (toISOString B t)
  | None => JS.Throw (JS.RangeError "Invalid time value")
  end.

Definition convertSample (B : Browser) (paper : Sample.Paper) : JS.Completion Paper :=
  published ← isoString B (Sample.published paper);
  updated ← isoString B (Sample.published paper);
  JS.Normal {| id := Sample.id paper; title := Sample.title paper;
               published := published; updated := updated;
               summary := Sample.summary paper;
               categories := Sample.categories paper;
               authors := map (fun name => {| name := name; affiliation := "" |})
                              (Sample.authors paper);
               pdfLink := Sample.pdfLink paper |}.

(** The [try] block of [getSamplePapers]. *)
Definition readSamplePapers (B : Browser) : JS.Completion (list Paper) :=
  match fetch B "data/sample-papers.json" with
  | NetworkError e => JS.Throw e
  | Response status body =>
      if negb (ok status) then
        JS.Throw (JS.Error (String.append "HTTP error! status: " (showNumber (Some status))))
      else
        match json B body with
        | None => JS.Throw (JS.SyntaxError "Unexpected token")
        | Some data =>
            match Sample.samplePapers data with
            | None => JS.Throw (JS.TypeError "Cannot convert undefined or null to object")
            | Some obj => JS.mapM (convertSample B) (map snd obj)
            end
        end
  end.

Definition getSamplePapers (B : Browser) : list Paper :=
  match readSamplePapers B with
  | JS.Normal samplePapers => samplePapers
  | JS.Throw _ => literalSamplePapers
  end.

(** *** Loading the list *)

(** [searchParams.toString()] for the four parameters of the query. *)
Definition searchParams : string :=
  "search_query=cat%3Acs.LG&sortBy=lastUpdatedDate&sortOrder=descending&max_results=20".

Definition apiUrl : string := ARXIV_API_BASE ++ "?" ++ searchParams.

Definition proxies (B : Browser) : list string := [
  "https://api.codetabs.com/v1/proxy?quest=" ++ encodeURIComponent B apiUrl;
  "https://corsproxy.io/?" ++ encodeURIComponent B apiUrl;
  "https://api.allorigins.win/raw?url=" ++ encodeURIComponent B apiUrl ].

(** The [for] loop over [proxies], from index [i] on: a response with an ok
    status sets [data] and breaks, anything else records [lastError]. *)
Fixpoint tryProxies (B : Browser) (i : nat) (proxies : list string) (acc : Attempts)
  : Attempts :=
  match proxies with
  | [] => acc
  | proxyUrl :: rest =>
      let requested' := (requested acc ++ [proxyUrl])%list in
      match fetch B proxyUrl with
      | Response status body =>
          if ok status then
            {| data := Some body; lastError := lastError acc; requested := requested' |}
          else
            tryProxies B (S i) rest
              {| data := data acc; lastError := Some (proxyFailed (S i) status);
                 requested := requested' |}
      | NetworkError e =>
          tryProxies B (S i) rest
            {| data := data acc; lastError := Some e; requested := requested' |}
      end
  end.

(** The fallback both the [if (!data)] branch and the [catch] block run. *)
Definition useSampleData (B : Browser) (notice : string) (st : State) : State :=
  showError notice (renderPapersData B (setPapersData (getSamplePapers B) st)).

(** [loadPapersForToday] over a given list of proxies. *)
Definition loadPapersFrom (B : Browser) (proxies : list string) (st : State) : State :=
  let st1 := showLoadingIndicator true st in
  let attempts := tryProxies B 0 proxies noAttempts in
  let st2 :=
    if JS.falsy (data attempts) then
      useSampleData B "Using sample data: API proxies unavailable" st1
    else
      match parseArxivResponse B (default "" (data attempts)) with
      | JS.Normal papers => renderPapersData B (setPapersData papers st1)
      | JS.Throw error =>
          useSampleData B ("Using sample data: " ++ JS.message error) st1
      end in
  showLoadingIndicator false st2.

Definition loadPapersForToday (B : Browser) (st : State) : State :=
  loadPapersFrom B (proxies B) st.

(** *** Escaping *)

(** The five characters of the class in [escapeHtml]: ampersand, the two
    angle brackets, the double quote (034) and the single quote. *)
Definition isSpecial (c : ascii) : bool :=
  Ascii.eqb c "&"%char || Ascii.eqb c "<"%char || Ascii.eqb c ">"%char ||
  Ascii.eqb c "034"%char || Ascii.eqb c "'"%char.

(** [map[m]] for a character matched by the class, the character itself
    otherwise. *)
Definition escapeChar (c : ascii) : string :=
  if Ascii.eqb c "&"%char then "&amp;"
  else if Ascii.eqb c "<"%char then "&lt;"
  else if Ascii.eqb c ">"%char then "&gt;"
  else if Ascii.eqb c "034"%char then "&quot;"
  else if Ascii.eqb c "'"%char then "&#039;"
  else String c EmptyString.

(** [escapeHtml(text)]: every character of the class is replaced by its
    entry in [map]. *)
Fixpoint escapeHtml (text : string) : string :=
  match text with
  | EmptyString => EmptyString
  | String c rest => escapeChar c ++ escapeHtml rest
  end.

End ListView.

(* ===================================================================== *)
(** ** The detail view *)
(* ===================================================================== *)

Module DetailView.

(** The object handed to the detail template (its [id] property is not
    rendered and is left out). *)
Record Paper : Type := {
  title : string;
  authors : list string;
  published : string;
  summary : string;
  pdfLink : string
}.

(** What [paper-detail] shows once a paper is displayed: the details of a
    paper read from the API, or the details of a sample paper with the note
    that they are sample data. *)
Inductive Content : Type :=
| Details (paper : Paper)
| SampleDetails (paper : Paper).

(** The arguments [setupCitationButtons] closes over. Both click handlers
    hold the same [authors] array. *)
Record CitationArgs : Type := {
  citeId : string;
  citeTitle : string;
  citeAuthors : list string;
  citePublished : string
}.

Record State : Type := {
  paperDetail : Content;
  citationButtons : option CitationArgs
}.

(** *** Citations *)

Definition newline : string := String "010"%char EmptyString.

(** [new Date(published).getFullYear()] inside a template literal. *)
Definition yearOf (B : Browser) (published : string) : string :=
  showNumber (getFullYear B <$> dateValue B published).

(** The callback of [authors.map] in [generateBibtex]: [parts] is a fresh
    array, [pop] takes its last element before [join] reads the rest. *)
Definition bibtexName (name : string) : string :=
  let (last, parts) := JS.pop (JS.split " " name) in
  default "undefined" last ++ ", " ++ JS.join " " parts.

(** Both generators return their text together with the [authors] array as
    the call leaves it. *)
Definition generateBibtex (B : Browser) (id title : string) (authors : list string)
    (published : string) : string * list string :=
  let year := yearOf B published in
  let authorList := JS.join " and " (map bibtexName authors) in
  ("@article{" ++ id ++ "," ++ newline ++
   "  title={" ++ title ++ "}," ++ newline ++
   "  author={" ++ authorList ++ "}," ++ newline ++
   "  journal={arXiv preprint arXiv:" ++ id ++ "}," ++ newline ++
   "  year={" ++ year ++ "}" ++ newline ++
   "}", authors).

Definition generateStandardCitation (B : Browser) (title : string)
    (authors : list string) (published : string) : string * list string :=
  let year := yearOf B published in
  let authorText := JS.join ", " authors in
  let (authorText, authors) :=
    if Nat.ltb 1 (length authors) then
      let (lastAuthor, authors) := JS.pop authors in
      (JS.join ", " authors ++ " and " ++ default "undefined" lastAuthor, authors)
    else (authorText, authors) in
  (authorText ++ " (" ++ year ++ "). " ++ title ++ ". arXiv preprint.", authors).

(** The two click handlers: the text copied, and the state afterwards. *)
Definition withAuthors (authors : list string) (c : CitationArgs) : CitationArgs :=
  {| citeId := citeId c; citeTitle := citeTitle c; citeAuthors := authors;
     citePublished := citePublished c |}.

Definition clickBibtex (B : Browser) (c : CitationArgs) : string * CitationArgs :=
  let (bibtex, authors) :=
    generateBibtex B (citeId c) (citeTitle c) (citeAuthors c) (citePublished c) in
  (bibtex, withAuthors authors c).

Definition clickCitation (B : Browser) (c : CitationArgs) : string * CitationArgs :=
  let (citation, authors) :=
    generateStandardCitation B (citeTitle c) (citeAuthors c) (citePublished c) in
  (citation, withAuthors authors c).

(** *** The fallback data *)

Definition ofSample (paper : Sample.Paper) : Paper :=
  {| title := Sample.title paper; authors := Sample.authors paper;
     published := Sample.published paper; summary := Sample.summary paper;
     pdfLink := Sample.pdfLink paper |}.

Definition hardcodedSamplePapers : gmap string Paper :=
  list_to_map [
    ("2401.12345",
     {| title := "Sample Paper: Advances in Machine Learning";
        authors := ["John Doe"; "Jane Smith"];
        published := "January 1, 2024";
        summary := "This is a sample paper demonstrating the capabilities of the arXiv CS Daily application. It showcases recent advances in machine learning algorithms and their practical applications.";
        pdfLink := "https://arxiv.org/pdf/2401.12345.pdf" |});
    ("2401.12346",
     {| title := "Sample Paper: Computer Vision Applications";
        authors := ["Alice Johnson"];
        published := "January 1, 2024";
        summary := "Exploring recent developments in computer vision and image recognition. This paper discusses novel approaches to object detection and image classification.";
        pdfLink := "https://arxiv.org/pdf/2401.12346.pdf" |});
    ("2401.12347",
     {| title := "Sample Paper: Natural Language Processing Trends";
        authors := ["Bob Wilson"; "Carol Brown"];
        published := "January 1, 2024";
        summary := "Analysis of current trends in natural language processing and text understanding. This research focuses on transformer architectures and their applications.";
        pdfLink := "https://arxiv.org/pdf/2401.12347.pdf" |})
  ].

(** The object on the right of [hardcodedSamplePapers[id] || ...]. *)
Definition genericSamplePaper : Paper :=
  {| title := "Sample Paper";
     authors := ["Sample Author"];
     published := "2024";
     summary := "This is a sample paper demonstrating the arXiv CS Daily application functionality.";
     pdfLink := "https://arxiv.org/abs/2401.00001" |}.

(** The [try] block of [displaySamplePaperDetails]: reading a property of
    [undefined] throws a TypeError, like every other failure of the block.
    The result is the object assigned to [paper]: a paper, or [None] for the
    object built from an inherited member of [data.samplePapers], whose
    title, authors, date, summary and link are all [undefined]. *)
Definition readSamplePaper (B : Browser) (id : string) : JS.Completion (option Paper) :=
  match fetch B "data/sample-papers.json" with
  | NetworkError e => JS.Throw e
  | Response status body =>
      if negb (ok status) then
        JS.Throw (JS.Error ("HTTP error! status: " ++ showNumber (Some status)))
      else
        match json B body with
        | None => JS.Throw (JS.SyntaxError "Unexpected token")
        | Some data =>
            match Sample.samplePapers data with
            | None => JS.Throw (JS.TypeError "Cannot read properties of undefined")
            | Some obj =>
                match Sample.lookup id obj with
                | Some found => JS.Normal (Some (ofSample found))
                | None =>
                    if JS.inherited id then JS.Normal None
                    else
                      match Sample.defaultSamplePaper data with
                      | Some dflt => JS.Normal (Some (ofSample dflt))
                      | None => JS.Throw (JS.TypeError "Cannot read properties of undefined (reading 'title')")
                      end
                end
            end
        end
  end.

(** The variable [paper] once the [try]/[catch] is over; [None] again for an
    object without the properties of a paper, here the inherited member
    that [hardcodedSamplePapers[id]] is for an inherited name. *)
Definition samplePaperFor (B : Browser) (id : string) : option Paper :=
  match readSamplePaper B id with
  | JS.Normal paper => paper
  | JS.Throw _ =>
      match hardcodedSamplePapers !! id with
      | Some paper => Some paper
      | None => if JS.inherited id then None else Some genericSamplePaper
      end
  end.

(** The exception of [paper.authors.join(', ')] when [paper.authors] is
    [undefined]; it is thrown while the template is evaluated, after the
    [try]/[catch], so nothing is written and no button is set up. *)
Definition undefinedAuthors : JS.Exn :=
  JS.TypeError "Cannot read properties of undefined (reading 'join')".

Definition displaySamplePaperDetails (B : Browser) (id : string) : JS.Completion State :=
  match samplePaperFor B id with
  | Some paper =>
      JS.Normal
        {| paperDetail := SampleDetails paper;
           citationButtons :=
             Some {| citeId := id; citeTitle := title paper;
                     citeAuthors := authors paper; citePublished := published paper |} |}
  | None => JS.Throw undefinedAuthors
  end.

(** *** Loading the details *)

Definition apiUrl (id : string) : string :=
  "https://export.arxiv.org/api/query?id_list=" ++ id.

Definition proxies (B : Browser) (id : string) : list string := [
  "https://api.codetabs.com/v1/proxy?quest=" ++ encodeURIComponent B (apiUrl id);
  "https://corsproxy.io/?" ++ encodeURIComponent B (apiUrl id);
  "https://api.allorigins.win/raw?url=" ++ encodeURIComponent B (apiUrl id) ].

(** [data.includes('Error') || data.includes('error')]. *)
Definition signalsError (data : string) : bool :=
  JS.includes "Error" data || JS.includes "error" data.

(** The [for] loop over [proxies]: a response with an ok status sets [data];
    the loop then goes on ([continue]) when the body holds the error marker
    and breaks otherwise. *)
Fixpoint tryProxies (B : Browser) (i : nat) (proxies : list string) (acc : Attempts)
  : Attempts :=
  match proxies with
  | [] => acc
  | proxyUrl :: rest =>
      let requested' := (requested acc ++ [proxyUrl])%list in
      match fetch B proxyUrl with
      | Response status body =>
          if ok status then
            let acc' := {| data := Some body; lastError := lastError acc;
                           requested := requested' |} in
            if signalsError body then tryProxies B (S i) rest acc' else acc'
          else
            tryProxies B (S i) rest
              {| data := data acc; lastError := Some (proxyFailed (S i) status);
                 requested := requested' |}
      | NetworkError e =>
          tryProxies B (S i) rest
            {| data := data acc; lastError := Some e; requested := requested' |}
      end
  end.

(** [el.getElementsByTagName(tag)[0]?.textContent]. *)
Definition firstText (tag : string) (el : Dom.Node) : option string :=
  Dom.textContent <$> List.hd_error (Dom.getElementsByTagName tag el).

(** The [for (let link of links)] loop: the [href] of the first link marked
    as the PDF ([None]: no such link, or no [href] on it). *)
Definition attrIs (name value : string) (el : Dom.Node) : bool :=
  match Dom.getAttribute name el with
  | Some v => String.eqb v value
  | None => false
  end.

Definition isPdfLink (link : Dom.Node) : bool :=
  attrIs "title" "pdf" link || attrIs "type" "application/pdf" link.

Definition findPdfLink (entry : Dom.Node) : option string :=
  List.find isPdfLink (Dom.getElementsByTagName "link" entry)
    ≫= Dom.getAttribute "href".

(** From [new DOMParser()] to [setupCitationButtons], inside the [try]. *)
Definition showDetails (B : Browser) (id data : string) : JS.Completion State :=
  let xmlDoc := parseFromString B data in
  if Nat.ltb 0 (length (Dom.docGetElementsByTagName "parsererror" xmlDoc)) then
    JS.Throw (JS.Error "Invalid XML response")
  else
    match Dom.docGetElementsByTagName "entry" xmlDoc with
    | [] => JS.Throw (JS.Error "Paper not found in API response")
    | entry :: _ =>
        let title := JS.or_else (firstText "title" entry) "No title" in
        let authors := map (fun author =>
          JS.or_else (firstText "name" author) "Unknown author")
          (Dom.getElementsByTagName "author" entry) in
        let published := JS.or_else (firstText "published" entry) "Unknown date" in
        let summary := JS.or_else (firstText "summary" entry) "No summary available" in
        let pdfLink := JS.or_else (findPdfLink entry)
                         ("https://arxiv.org/pdf/" ++ id ++ ".pdf") in
        JS.Normal
          {| paperDetail := Details
               {| title := title; authors := authors;
                  published := toLocaleDateString B (dateValue B published);
                  summary := summary; pdfLink := pdfLink |};
             citationButtons :=
               Some {| citeId := id; citeTitle := title; citeAuthors := authors;
                       citePublished := published |} |}
    end.

(** [fetchPaperDetails] over a given list of proxies: the [try] block, and
    the [catch] block, which calls [displaySamplePaperDetails] and lets what
    that call throws escape. *)
Definition fetchDetailsFrom (B : Browser) (proxies : list string) (id : string)
  : JS.Completion State :=
  let attempts := tryProxies B 0 proxies noAttempts in
  let tried :=
    if JS.falsy (data attempts) then displaySamplePaperDetails B id
    else showDetails B id (default "" (data attempts)) in
  match tried with
  | JS.Normal st => JS.Normal st
  | JS.Throw _ => displaySamplePaperDetails B id
  end.

Definition fetchPaperDetails (B : Browser) (id : string) : JS.Completion State :=
  fetchDetailsFrom B (proxies B id) id.

End DetailView.

(* ===================================================================== *)
(** ** Concrete browsers and documents *)
(* ===================================================================== *)

Module Fixtures.

Fixpoint assoc {V} (key : string) (table : list (string * V)) : option V :=
  match table with
  | [] => None
  | (k, v) :: rest => if String.eqb k key then Some v else assoc key rest
  end.

(** The document a parser returns for text that is not well-formed. *)
Definition parserErrorDocument : Dom.Document :=
  {| Dom.childNodes :=
       [Dom.Element "parsererror" []
          [Dom.Text "XML Parsing Error: syntax error";
           Dom.Element "sourcetext" [] []]] |}.

(** The year of a time value in UTC (days are counted from 0000-03-01, in
    eras of 400 years). *)
Definition utcYear (t : Z) : Z :=
  let z := (t / 86400000 + 719468)%Z in
  let era := (z / 146097)%Z in
  let doe := (z - era * 146097)%Z in
  let yoe := ((doe - doe / 1460 + doe / 36524 - doe / 146096) / 365)%Z in
  let doy := (doe - (365 * yoe + yoe / 4 - yoe / 100))%Z in
  let mp := ((5 * doy + 2) / 153)%Z in
  (yoe + era * 400 + (if (mp <? 10)%Z then 0 else 1))%Z.

(** A browser scripted by tables: the responses of the network by URL (any
    other URL fails to connect), the documents of the parser by text (any
    other text is not well-formed), the parsed asset, and the time values of
    the date strings. Its local time zone is UTC. *)
Definition scripted (responses : list (string * FetchResult))
    (documents : list (string * Dom.Document)) (asset : option Sample.Data)
    (dates : list (string * Z)) : Browser :=
  {| fetch := fun url =>
       default (NetworkError (JS.TypeError "Failed to fetch")) (assoc url responses);
     parseFromString := fun text => default parserErrorDocument (assoc text documents);
     json := fun _ => asset;
     encodeURIComponent := fun s => s;
     dateValue := fun s => assoc s dates;
     toISOString := fun t => showNumber (Some t);
     getFullYear := utcYear;
     toLocaleDateString := fun t =>
       match t with
       | Some z => showNumber (Some z)
       | None => "Invalid Date"
       end |}.

Definition field (tag text : string) : Dom.Node :=
  Dom.Element tag [] [Dom.Text text].

Definition entry2401 : Dom.Node :=
  Dom.Element "entry" [] [
    field "id" "http://arxiv.org/abs/2401.12345v1";
    field "updated" "2024-01-02T10:00:00Z";
    field "published" "2024-01-01T09:00:00Z";
    field "title" "  Sparse Attention  ";
    field "summary" " We study sparse attention. ";
    Dom.Element "author" [] [field "name" "John Doe"];
    Dom.Element "author" [] [field "name" "Jane Smith"];
    Dom.Element "link" [("href", "http://arxiv.org/abs/2401.12345v1"); ("rel", "alternate")] [];
    Dom.Element "link" [("title", "pdf"); ("href", "http://arxiv.org/pdf/2401.12345v1")] [];
    Dom.Element "category" [("term", "cs.LG")] [];
    Dom.Element "category" [("term", "stat.ML")] [] ].

Definition entry2312 : Dom.Node :=
  Dom.Element "entry" [] [
    field "id" "http://arxiv.org/abs/2312.00001v2";
    field "published" "2023-12-01T09:00:00Z";
    field "title" "Numerical Solvers";
    Dom.Element "category" [("term", "math.NA")] [];
    Dom.Element "category" [("term", "cs.NA")] [] ].

Definition feedOf (entries : list Dom.Node) : Dom.Document :=
  {| Dom.childNodes :=
       [Dom.Element "feed" [("xmlns", "http://www.w3.org/2005/Atom")]
          (field "title" "ArXiv Query" :: field "id" "http://arxiv.org/api/query" :: entries)] |}.

Definition twoEntryFeed : Dom.Document := feedOf [entry2401; entry2312].

(** An entry whose only category element has no [term] attribute. *)
Definition entryBareCategory : Dom.Node :=
  Dom.Element "entry" [] [
    field "id" "http://arxiv.org/abs/2401.00002v1";
    field "title" "Untagged";
    Dom.Element "category" [("scheme", "http://arxiv.org/schemas/atom")] [] ].

(** A browser without network, parser table, asset or dates. *)
Definition plain : Browser := scripted [] [] None [].

(** The proxy URLs of the two views ([encodeURIComponent] left aside). *)
Definition listProxies : list string := ListView.proxies plain.
Definition detailProxies (id : string) : list string := DetailView.proxies plain id.

(** The text of a feed with the single entry [entry2312], and its document. *)
Definition feedXml : string :=
  "<feed xmlns='http://www.w3.org/2005/Atom'><title>ArXiv Query</title><id>http://arxiv.org/api/query</id><entry><id>http://arxiv.org/abs/2312.00001v2</id><published>2023-12-01T09:00:00Z</published><title>Numerical Solvers</title><category term='math.NA'/><category term='cs.NA'/></entry></feed>".

(** The feed the API answers with for an id it cannot read. *)
Definition errorFeedXml : string :=
  "<feed xmlns='http://www.w3.org/2005/Atom'><entry><id>http://arxiv.org/api/errors#incorrect_id_format_for_abc</id><title>Error</title><summary>incorrect id format for abc</summary></entry></feed>".

Definition errorFeed : Dom.Document :=
  {| Dom.childNodes :=
       [Dom.Element "feed" [("xmlns", "http://www.w3.org/2005/Atom")]
          [Dom.Element "entry" [] [
             field "id" "http://arxiv.org/api/errors#incorrect_id_format_for_abc";
             field "title" "Error";
             field "summary" "incorrect id format for abc" ]]] |}.

(** The text of a feed without entries; its document is [feedOf []]. *)
Definition emptyFeedXml : string :=
  "<feed xmlns='http://www.w3.org/2005/Atom'><title>ArXiv Query</title><id>http://arxiv.org/api/query</id></feed>".

(** A page that is not XML. *)
Definition busy : string := "Service temporarily unavailable".

Definition dates : list (string * Z) := [
  ("2024-01-01T09:00:00Z", 1704099600000%Z);
  ("2023-12-01T09:00:00Z", 1701421200000%Z);
  ("2024-01-01T00:00:00Z", 1704067200000%Z);
  ("January 1, 2024", 1704067200000%Z) ].

(** The browser in which the n-th proxy of either view (for the paper [id])
    answers with the n-th of the given results; the asset is not served. *)
Definition answering (results : list FetchResult) (id : string) : Browser :=
  scripted (combine listProxies results ++ combine (detailProxies id) results)%list
           [(feedXml, feedOf [entry2312]); (errorFeedXml, errorFeed);
            (emptyFeedXml, feedOf [])] None dates.

(** Proxy 1 answers with a page that is not XML, proxy 2 with the feed. *)
Definition busyFirst : Browser :=
  answering [Response 200 busy; Response 200 feedXml] "2312.00001".

(** Proxy 1 answers with an empty body, proxy 2 with the feed. *)
Definition emptyFirst : Browser :=
  answering [Response 200 ""; Response 200 feedXml] "2312.00001".

(** Every proxy answers with a page that is not XML. *)
Definition busyAll : Browser :=
  answering [Response 200 busy; Response 200 busy; Response 200 busy] "2312.00001".

(** Proxy 1 times out, proxy 2 answers 500, proxy 3 with the feed. *)
Definition thirdAnswers : Browser :=
  answering [NetworkError (JS.Error "The operation timed out");
             Response 500 "Internal Server Error"; Response 200 feedXml] "2312.00001".

(** Proxy 1 times out, the other two answer 500 and 503. *)
Definition downAll : Browser :=
  answering [NetworkError (JS.Error "The operation timed out");
             Response 500 "Internal Server Error";
             Response 503 "Service Unavailable"] "2312.00001".

(** Every proxy passes on the error feed of the API. *)
Definition errorAll : Browser :=
  answering [Response 200 errorFeedXml; Response 200 errorFeedXml;
             Response 200 errorFeedXml] "abc".

(** A parsed asset with one record and a default record, and the browser
    that serves it while no proxy answers. *)
Definition sample2401 : Sample.Paper :=
  {| Sample.id := "2401.12345";
     Sample.title := "Sample Paper: Advances in Machine Learning";
     Sample.published := "January 1, 2024";
     Sample.summary := "A sample paper.";
     Sample.categories := ["cs.LG"; "cs.AI"];
     Sample.authors := ["John Doe"; "Jane Smith"];
     Sample.pdfLink := "https://arxiv.org/pdf/2401.12345.pdf" |}.

Definition sampleDefault : Sample.Paper :=
  {| Sample.id := "2401.00001";
     Sample.title := "Default Sample Paper";
     Sample.published := "January 1, 2024";
     Sample.summary := "The default sample paper.";
     Sample.categories := ["cs.AI"];
     Sample.authors := ["Sample Author"];
     Sample.pdfLink := "https://arxiv.org/abs/2401.00001" |}.

Definition assetData : Sample.Data :=
  {| Sample.samplePapers := Some [("2401.12345", sample2401)];
     Sample.defaultSamplePaper := Some sampleDefault |}.

Definition withAsset : Browser :=
  scripted [("data/sample-papers.json", Response 200 "{}")] [] (Some assetData) dates.

(** The list page before the script runs. *)
Definition page : ListView.State :=
  {| ListView.currentCategory := "all"; ListView.papersData := [];
     ListView.papersContainer := Some ListView.Served;
     ListView.loadingIndicator := Some false |}.

Definition paper2401 : ListView.Paper :=
  {| ListView.id := "2401.12345v1"; ListView.title := "Sparse Attention";
     ListView.published := "2024-01-01T09:00:00Z";
     ListView.updated := "2024-01-02T10:00:00Z";
     ListView.summary := "We study sparse attention.";
     ListView.categories := ["cs.LG"]; ListView.authors := [];
     ListView.pdfLink := "http://arxiv.org/pdf/2401.12345v1" |}.

Definition paper2312 : ListView.Paper :=
  {| ListView.id := "2312.00001v2"; ListView.title := "Numerical Solvers";
     ListView.published := "2023-12-01T09:00:00Z"; ListView.updated := "";
     ListView.summary := ""; ListView.categories := ["cs.NA"];
     ListView.authors := []; ListView.pdfLink := "" |}.

(** A record of an entry without a [published] element. *)
Definition undated : ListView.Paper :=
  {| ListView.id := "2402.00003v1"; ListView.title := "Undated";
     ListView.published := ""; ListView.updated := ""; ListView.summary := "";
     ListView.categories := ["cs.LG"]; ListView.authors := [];
     ListView.pdfLink := "" |}.

(** The text of a feed whose entry has a category without a term, and the
    browser in which proxy 1 of the list view answers with it. *)
Definition bareXml : string :=
  "<feed xmlns='http://www.w3.org/2005/Atom'><title>ArXiv Query</title><id>http://arxiv.org/api/query</id><entry><id>http://arxiv.org/abs/2401.00002v1</id><title>Untagged</title><category scheme='http://arxiv.org/schemas/atom'/></entry></feed>".

Definition bareFirst : Browser :=
  scripted (combine listProxies [Response 200 bareXml])
           [(bareXml, feedOf [entryBareCategory])] None dates.

(** An asset whose second record has a date the browser cannot read. *)
Definition sampleUndated : Sample.Paper :=
  {| Sample.id := "2401.12346";
     Sample.title := "Sample Paper: Computer Vision Applications";
     Sample.published := "soon";
     Sample.summary := "Another sample paper.";
     Sample.categories := ["cs.CV"];
     Sample.authors := ["Alice Johnson"];
     Sample.pdfLink := "https://arxiv.org/pdf/2401.12346.pdf" |}.

Definition assetUndated : Sample.Data :=
  {| Sample.samplePapers :=
       Some [("2401.12345", sample2401); ("2401.12346", sampleUndated)];
     Sample.defaultSamplePaper := Some sampleDefault |}.

Definition withUndatedAsset : Browser :=
  scripted [("data/sample-papers.json", Response 200 "{}")] [] (Some assetUndated) dates.




(** A paper on error bounds: its feed is well-formed and reports no error,
    and its abstract holds the word the detail view looks for. *)
Definition entryErrorBounds : Dom.Node :=
  Dom.Element "entry" [] [
    field "id" "http://arxiv.org/abs/2402.00005v1";
    field "published" "2024-01-01T09:00:00Z";
    field "title" "Certified Solvers";
    field "summary" "We prove error bounds for iterative solvers.";
    Dom.Element "category" [("term", "cs.NA")] [] ].

Definition errorBoundsXml : string :=
  "<feed xmlns='http://www.w3.org/2005/Atom'><title>ArXiv Query</title><id>http://arxiv.org/api/query</id><entry><id>http://arxiv.org/abs/2402.00005v1</id><published>2024-01-01T09:00:00Z</published><title>Certified Solvers</title><summary>We prove error bounds for iterative solvers.</summary><category term='cs.NA'/></entry></feed>".

(** Proxy 1 of the detail view answers with the feed of that paper, proxy 2
    with the feed of another paper, proxy 3 does not answer. *)
Definition boundsFirst : Browser :=
  scripted (combine (detailProxies "2402.00005")
                    [Response 200 errorBoundsXml; Response 200 feedXml])
           [(errorBoundsXml, feedOf [entryErrorBounds]); (feedXml, feedOf [entry2312])]
           None dates.

End Fixtures.

(* ===================================================================== *)
(** ** Notions used in the statements *)
(* ===================================================================== *)

Definition present {A} (o : option A) : bool :=
  match o with
  | Some _ => true
  | None => false
  end.

Definition chars (s : string) : list ascii := list_ascii_of_string s.

(** [seg] is the final path segment of [url]: it holds no slash, and [url]
    is [seg] itself or ends with a slash followed by [seg]. *)
Definition lastPathSegment (url seg : string) : Prop :=
  ~ In "/"%char (chars seg) /\
  (url = seg \/ exists pre, url = pre ++ String "/"%char seg).

(** The entry elements of a document, in document order. *)
Definition entries (doc : Dom.Document) : list Dom.Node :=
  Dom.docQuerySelectorAll (Dom.ByTag "entry") doc.

(** The text of the entry's identifier element. *)
Definition identifierUrl (entry : Dom.Node) : option string :=
  Dom.textContent <$> List.hd_error (Dom.querySelectorAll (Dom.ByTag "id") entry).

(** The subject tags an entry carries, [None] for a category element
    without a [term] attribute. *)
Definition categoryTerms (entry : Dom.Node) : list (option string) :=
  map (Dom.getAttribute "term") (Dom.querySelectorAll (Dom.ByTag "category") entry).

(** An entry is well-formed when it has an identifier and each of its
    category elements has a term. *)
Definition wellFormedEntry (entry : Dom.Node) : bool :=
  present (identifierUrl entry) && forallb present (categoryTerms entry).

(** The exception [parseEntry] raises on a category without a term. *)
Definition nullTerm : JS.Exn :=
  JS.TypeError "Cannot read properties of null (reading 'startsWith')".

(** The text is well-formed for the parser: the document it returns holds no
    [parsererror] element (the test [fetchPaperDetails] applies). *)
Definition wellFormed (B : Browser) (text : string) : bool :=
  Nat.eqb (length (Dom.docGetElementsByTagName "parsererror" (parseFromString B text))) 0.

(** A structurally valid body: not empty and well-formed. Whatever more a
    non-error body is asked to be, it is at least this; the one error test
    of the code, the substring test of the detail view, is named where a
    statement depends on it. *)
Definition validBody (B : Browser) (body : string) : bool :=
  JS.truthy body && wellFormed B body.

(** The body of an attempt that yields a valid body. *)
Definition validAttempt (B : Browser) (url : string) : option string :=
  match fetch B url with
  | Response status body => if ok status && validBody B body then Some body else None
  | NetworkError _ => None
  end.

(** The attempt ends with a status that is not ok, or with an exception. *)
Definition unanswered (B : Browser) (url : string) : bool :=
  match fetch B url with
  | Response status _ => negb (ok status)
  | NetworkError _ => true
  end.

(** The attempt is one the loop of the detail view goes past: it is
    unanswered, or its body holds the error marker. *)
Definition rejected (B : Browser) (url : string) : bool :=
  match fetch B url with
  | Response status body => negb (ok status) || DetailView.signalsError body
  | NetworkError _ => true
  end.

(** Newest first: both dates are valid and the first is not the older. *)
Definition newerOrEqual (B : Browser) (a b : ListView.Paper) : Prop :=
  exists ta tb,
    dateValue B (ListView.published a) = Some ta /\
    dateValue B (ListView.published b) = Some tb /\ (tb <= ta)%Z.

(** The papers [renderPaperList] selects for the current category. *)
Definition selected (category : string) (papers : list ListView.Paper)
  : list ListView.Paper :=
  if String.eqb category "all" then papers
  else List.filter (ListView.inCategory category) papers.

(** The parsed asset, when the script manages to read it. *)
Definition asset (B : Browser) : option Sample.Data :=
  match fetch B "data/sample-papers.json" with
  | Response status body => if ok status then json B body else None
  | NetworkError _ => None
  end.

(** Each paper of the list is one the comparator of [renderPaperList] keeps
    before the next. *)
Definition inOrder (B : Browser) (l : list ListView.Paper) : Prop :=
  Sorted (fun x y => JS.keepsBefore (ListView.byPublishedDesc B) x y = true) l.

(* ===================================================================== *)
(** ** Strings and arrays *)
(* ===================================================================== *)

Lemma split_nonempty sep s : JS.split sep s <> [].
Proof.
  destruct s as [|c s]; simpl; [discriminate|].
  destruct (Ascii.eqb c sep); [discriminate|].
  destruct (JS.split sep s); discriminate.
Qed.

Lemma pop_cons_cons {A} (x y : A) l :
  fst (JS.pop (x :: y :: l)) = fst (JS.pop (y :: l)).
Proof.
  change (JS.pop (x :: y :: l))
    with (let (last, rest) := JS.pop (y :: l) in (last, x :: rest)).
  destruct (JS.pop (y :: l)); reflexivity.
Qed.

Lemma pop_cons {A} (x : A) l :
  l <> [] -> fst (JS.pop (x :: l)) = fst (JS.pop l).
Proof. destruct l; [congruence | intros _; apply pop_cons_cons]. Qed.

(** The last element of [s.split(sep)] is the part of [s] after its last
    separator. *)
Lemma split_last sep s :
  exists seg,
    fst (JS.pop (JS.split sep s)) = Some seg /\
    ~ In sep (chars seg) /\
    ((JS.split sep s = [seg] /\ s = seg) \/
     (exists pre, s = pre ++ String sep seg) /\ 2 <= length (JS.split sep s)).
Proof.
  induction s as [|c s IH].
  - exists EmptyString. simpl. split; [reflexivity|]. split; [tauto|]. left. auto.
  - destruct IH as (seg & Hpop & Hno & Hshape). simpl.
    destruct (Ascii.eqb_spec c sep) as [->|Hne].
    + exists seg. split; [|split; [exact Hno|]].
      * rewrite pop_cons by apply split_nonempty. exact Hpop.
      * right. split.
        -- destruct Hshape as [[_ ->]|[[pre ->] _]].
           ++ exists EmptyString. reflexivity.
           ++ exists (String sep pre). reflexivity.
        -- pose proof (split_nonempty sep s) as Hs.
           destruct (JS.split sep s); [congruence | simpl; lia].
    + destruct Hshape as [[Hone ->]|[[pre ->] Hlen]].
      * rewrite Hone. exists (String c seg). simpl.
        split; [reflexivity|]. split; [|left; auto].
        unfold chars in *. simpl. intros [E|E]; [congruence | tauto].
      * destruct (JS.split sep (pre ++ String sep seg)) as [|seg0 rest] eqn:E;
          [simpl in Hlen; lia|].
        exists seg. split; [|split; [exact Hno|]].
        -- rewrite pop_cons; [|destruct rest; [simpl in Hlen; lia | discriminate]].
           rewrite <- Hpop. symmetry. apply pop_cons.
           destruct rest; [simpl in Hlen; lia | discriminate].
        -- right. split; [exists (String c pre); reflexivity | simpl in *; lia].
Qed.

Lemma split_last_segment s :
  exists seg, fst (JS.pop (JS.split "/" s)) = Some seg /\ lastPathSegment s seg.
Proof.
  destruct (split_last "/" s) as (seg & Hpop & Hno & Hshape).
  exists seg. split; [exact Hpop|]. split; [exact Hno|].
  destruct Hshape as [[_ ->]|[H _]]; [left; reflexivity | right; exact H].
Qed.

Lemma or_else_empty (s : string) : JS.or_else (Some s) "" = s.
Proof. unfold JS.or_else, JS.truthy. destruct (String.eqb_spec s ""); simpl; congruence. Qed.

(** [mapM] succeeds when the callback does on every element, and then
    relates the results to the elements position by position. *)
Lemma mapM_Forall2 {A B} (f : A -> JS.Completion B) (R : A -> B -> Prop) l :
  Forall (fun x => exists y, f x = JS.Normal y /\ R x y) l ->
  exists ys, JS.mapM f l = JS.Normal ys /\ Forall2 R l ys.
Proof.
  induction 1 as [|x l (y & Hy & HR) _ (ys & Hys & HF)]; simpl.
  - exists []. split; [reflexivity | constructor].
  - exists (y :: ys). rewrite Hy. simpl. rewrite Hys. simpl.
    split; [reflexivity | constructor; assumption].
Qed.

Lemma mapM_Normal_Forall2 {A B} (f : A -> JS.Completion B) l ys :
  JS.mapM f l = JS.Normal ys -> Forall2 (fun x y => f x = JS.Normal y) l ys.
Proof.
  revert ys. induction l as [|x l IH]; simpl; intros ys H.
  - injection H as <-. constructor.
  - destruct (f x) as [y|] eqn:Hy; simpl in H; [|discriminate].
    destruct (JS.mapM f l) as [ys'|] eqn:Hl; simpl in H; [|discriminate].
    injection H as <-. constructor; [exact Hy | apply IH; reflexivity].
Qed.

(* ===================================================================== *)
(** ** The normalizer: [parseArxivResponse] *)
(* ===================================================================== *)

Lemma filterCsTerms_null terms :
  In None terms -> ListView.filterCsTerms terms = JS.Throw nullTerm.
Proof.
  induction terms as [|[t|] terms IH]; simpl; intros H.
  - contradiction.
  - destruct H as [H|H]; [discriminate|]. rewrite (IH H). reflexivity.
  - reflexivity.
Qed.

Lemma filterCsTerms_present terms :
  forallb present terms = true ->
  exists kept, ListView.filterCsTerms terms = JS.Normal kept /\
    forall c, In c kept <-> In (Some c) terms /\ JS.startsWith "cs." c = true.
Proof.
  induction terms as [|[t|] terms IH]; simpl; intros H.
  - exists []. split; [reflexivity|]. simpl. tauto.
  - destruct (IH H) as (kept & -> & Hkept). cbn [mbind completion_bind JS.bind].
    destruct (JS.startsWith "cs." t) eqn:Et; eexists; (split; [reflexivity|]);
      intros c; simpl; rewrite Hkept; split.
    + intros [->|[? ?]]; auto.
    + intros [[E|?] ?]; [left; congruence | right; auto].
    + intros [? ?]; auto.
    + intros [[E|?] ?]; [congruence | auto].
  - discriminate.
Qed.

Lemma filterCsTerms_prefix terms kept :
  ListView.filterCsTerms terms = JS.Normal kept ->
  Forall (fun c => JS.startsWith "cs." c = true) kept.
Proof.
  revert kept. induction terms as [|[t|] terms IH]; simpl; intros kept H.
  - injection H as <-. constructor.
  - destruct (ListView.filterCsTerms terms) as [kept'|]; [|discriminate].
    cbn [mbind completion_bind JS.bind] in H. injection H as <-.
    specialize (IH _ eq_refl).
    destruct (JS.startsWith "cs." t) eqn:Et; [constructor|]; assumption.
  - discriminate.
Qed.

(** What [parseEntry] returns is decided by the category terms alone. *)
Lemma parseEntry_Normal entry p :
  ListView.parseEntry entry = JS.Normal p ->
  ListView.filterCsTerms (categoryTerms entry) = JS.Normal (ListView.categories p) /\
  ListView.id p =
    JS.or_else (identifierUrl entry ≫= fun text => fst (JS.pop (JS.split "/" text))) "".
Proof.
  unfold ListView.parseEntry. fold (categoryTerms entry).
  destruct (ListView.filterCsTerms (categoryTerms entry)) as [kept|];
    cbn [mbind completion_bind JS.bind]; [|discriminate].
  intros H. injection H as <-. split; reflexivity.
Qed.

Lemma parseEntry_terms entry kept :
  ListView.filterCsTerms (categoryTerms entry) = JS.Normal kept ->
  exists p, ListView.parseEntry entry = JS.Normal p /\ ListView.categories p = kept.
Proof.
  intros H. unfold ListView.parseEntry. fold (categoryTerms entry). rewrite H.
  cbn [mbind completion_bind JS.bind]. eexists. split; reflexivity.
Qed.

Lemma parseEntry_null entry :
  In None (categoryTerms entry) -> ListView.parseEntry entry = JS.Throw nullTerm.
Proof.
  intros H. unfold ListView.parseEntry. fold (categoryTerms entry).
  rewrite (filterCsTerms_null _ H). reflexivity.
Qed.

Lemma parseEntry_wellFormed entry :
  wellFormedEntry entry = true ->
  exists p, ListView.parseEntry entry = JS.Normal p /\
    exists url, identifierUrl entry = Some url /\ lastPathSegment url (ListView.id p).
Proof.
  unfold wellFormedEntry. intros H. apply andb_prop in H as [Hid Hterms].
  destruct (filterCsTerms_present _ Hterms) as (kept & Hkept & _).
  destruct (parseEntry_terms _ _ Hkept) as (p & Hp & _).
  exists p. split; [exact Hp|].
  destruct (identifierUrl entry) as [url|] eqn:Hurl; [|discriminate].
  exists url. split; [reflexivity|].
  destruct (parseEntry_Normal _ _ Hp) as [_ ->]. rewrite Hurl. simpl.
  destruct (split_last_segment url) as (seg & -> & Hseg).
  rewrite or_else_empty. exact Hseg.
Qed.

(** An entry without any descendant gets the default of every field. *)
Lemma parseEntry_defaults tag attrs :
  ListView.parseEntry (Dom.Element tag attrs []) =
  JS.Normal {| ListView.id := ""; ListView.title := ""; ListView.published := "";
               ListView.updated := ""; ListView.summary := "";
               ListView.categories := []; ListView.authors := [];
               ListView.pdfLink := "" |}.
Proof. reflexivity. Qed.

(** Without a category term in the [cs.] namespace, and with a term on every
    category element, the categories are the empty array. *)
Lemma parseEntry_no_cs_category entry :
  Forall (fun t => exists c, t = Some c /\ JS.startsWith "cs." c = false)
         (categoryTerms entry) ->
  exists p, ListView.parseEntry entry = JS.Normal p /\ ListView.categories p = [].
Proof.
  intros H. apply parseEntry_terms.
  induction H as [|t terms (c & -> & Hc) _ IH]; simpl; [reflexivity|].
  rewrite IH. cbn [mbind completion_bind JS.bind]. rewrite Hc. reflexivity.
Qed.

(** C4. A document whose entries are well-formed is normalized into one
    record per entry, in document order, and the id of each record is the
    final path segment of the identifier URL of its entry. *)
Theorem normalizer_one_record_per_entry (doc : Dom.Document) :
  Forall (fun entry => wellFormedEntry entry = true) (entries doc) ->
  exists papers,
    ListView.parseArxivDocument doc = JS.Normal papers /\
    length papers = length (entries doc) /\
    Forall2 (fun entry p =>
               exists url, identifierUrl entry = Some url /\
                           lastPathSegment url (ListView.id p))
            (entries doc) papers.
Proof.
  intros Hwf. unfold ListView.parseArxivDocument. fold (entries doc).
  destruct (mapM_Forall2 ListView.parseEntry
              (fun entry p => exists url, identifierUrl entry = Some url /\
                                          lastPathSegment url (ListView.id p))
              (entries doc)) as (papers & Hpapers & HF).
  - eapply Forall_impl; [exact Hwf|]. intros e He. cbv beta in He.
    destruct (parseEntry_wellFormed e He) as (p & Hp & Hurl). exists p. auto.
  - exists papers. split; [exact Hpapers|]. split; [|exact HF].
    symmetry. eapply Forall2_length. exact HF.
Qed.

Lemma normalizer_one_record_per_entry_witness :
  Forall (fun entry => wellFormedEntry entry = true) (entries Fixtures.twoEntryFeed) /\
  exists papers,
    ListView.parseArxivDocument Fixtures.twoEntryFeed = JS.Normal papers /\
    length papers = length (entries Fixtures.twoEntryFeed) /\
    Forall2 (fun entry p =>
               exists url, identifierUrl entry = Some url /\
                           lastPathSegment url (ListView.id p))
            (entries Fixtures.twoEntryFeed) papers.
Proof.
  assert (H : Forall (fun entry => wellFormedEntry entry = true)
                     (entries Fixtures.twoEntryFeed)).
  { vm_compute. repeat constructor. }
  split; [exact H | exact (normalizer_one_record_per_entry Fixtures.twoEntryFeed H)].
Defined.

(** C5. The entry of the fixture has an identifier, a title and one category
    element without a [term] attribute, so no category tag of the [cs.]
    namespace; normalizing the document that holds it raises a TypeError
    instead of returning a record with empty categories. *)
Theorem normalizer_raises_on_category_without_term :
  categoryTerms Fixtures.entryBareCategory = [None] /\
  ListView.parseArxivDocument (Fixtures.feedOf [Fixtures.entryBareCategory])
    = JS.Throw nullTerm.
Proof. split; reflexivity. Qed.

(** C7 (as amended). Every category of every record the normalizer returns
    starts with the prefix [cs.]. *)
Theorem categories_have_cs_prefix (doc : Dom.Document) (papers : list ListView.Paper) :
  ListView.parseArxivDocument doc = JS.Normal papers ->
  Forall (fun p => Forall (fun c => JS.startsWith "cs." c = true)
                          (ListView.categories p)) papers.
Proof.
  intros H. apply mapM_Normal_Forall2 in H.
  induction H as [|e p es ps Hp _ IH]; constructor; [|exact IH].
  apply parseEntry_Normal in Hp as [Hterms _].
  exact (filterCsTerms_prefix _ _ Hterms).
Qed.

Lemma categories_have_cs_prefix_witness :
  exists papers,
    ListView.parseArxivDocument Fixtures.twoEntryFeed = JS.Normal papers /\
    Forall (fun p => Forall (fun c => JS.startsWith "cs." c = true)
                            (ListView.categories p)) papers.
Proof.
  eexists. split; [vm_compute; reflexivity|].
  apply (categories_have_cs_prefix Fixtures.twoEntryFeed). vm_compute. reflexivity.
Defined.

(** C7 (as stated) fails: the record of an entry tagged [cs.NA] keeps that
    tag, which is not a key of [CATEGORY_MAP]. *)
Lemma category_outside_CATEGORY_MAP :
  exists p,
    ListView.parseArxivDocument (Fixtures.feedOf [Fixtures.entry2312]) = JS.Normal [p] /\
    ListView.categories p = ["cs.NA"] /\
    ListView.CATEGORY_MAP !! "cs.NA" = None.
Proof. eexists. split; [vm_compute; reflexivity|]. split; vm_compute; reflexivity. Qed.

(** Every key of [CATEGORY_MAP] has the prefix the normalizer tests. *)
Lemma CATEGORY_MAP_keys_have_cs_prefix (tag label : string) :
  ListView.CATEGORY_MAP !! tag = Some label -> JS.startsWith "cs." tag = true.
Proof.
  intros H. apply (elem_of_list_to_map_2 (M := gmap string)) in H.
  unfold ListView.CATEGORY_MAP in H.
  repeat (apply elem_of_cons in H as [H|H]; [injection H as -> _; reflexivity|]).
  apply elem_of_nil in H. contradiction.
Qed.

(* ===================================================================== *)
(** ** The proxy loops *)
(* ===================================================================== *)

(** The request log of a loop step: [(log ++ [u]) ++ r] is [log ++ u :: r]. *)
Ltac log_step := simpl; rewrite <- ?List.app_assoc; first [reflexivity | split; reflexivity].

(** Passing a hypothesis on the proxies of a list to its tail. *)
Ltac tail_of H := intros; apply H; right; assumption.

(** Either no element satisfies a test, or there is a first one that does. *)
Lemma first_true_split {A} (f : A -> bool) (l : list A) :
  (forall x, In x l -> f x = false) \/
  exists pre x post, l = (pre ++ x :: post)%list /\ f x = true /\
                     forall y, In y pre -> f y = false.
Proof.
  induction l as [|a l IH].
  - left. intros x [].
  - destruct (f a) eqn:Ha.
    + right. exists [], a, l. split; [reflexivity|]. split; [exact Ha|]. intros y [].
    + destruct IH as [IH|(pre & x & post & -> & Hx & Hpre)].
      * left. intros x [<-|Hx]; auto.
      * right. exists (a :: pre), x, post. split; [reflexivity|]. split; [exact Hx|].
        intros y [<-|Hy]; auto.
Qed.

(** While every attempt is unanswered the loop keeps [data] and requests
    every proxy. *)
Lemma list_all_unanswered B proxies : forall i acc,
  (forall u, In u proxies -> unanswered B u = true) ->
  data (ListView.tryProxies B i proxies acc) = data acc /\
  requested (ListView.tryProxies B i proxies acc) = (requested acc ++ proxies)%list.
Proof.
  induction proxies as [|u proxies IH]; intros i acc H; simpl.
  - rewrite app_nil_r. split; reflexivity.
  - pose proof (H u (or_introl eq_refl)) as Hu. unfold unanswered in Hu.
    destruct (fetch B u) as [e|status body].
    + destruct (IH (S i) {| data := data acc; lastError := Some e;
                            requested := (requested acc ++ [u])%list |}) as [-> ->];
        [tail_of H|].
      log_step.
    + destruct (ok status); [discriminate|].
      destruct (IH (S i) {| data := data acc;
                            lastError := Some (proxyFailed (S i) status);
                            requested := (requested acc ++ [u])%list |}) as [-> ->];
        [tail_of H|].
      log_step.
Qed.

(** The loop ends at the first response with an ok status. *)
Lemma list_first_answer B earlier url later status body : forall i acc,
  (forall u, In u earlier -> unanswered B u = true) ->
  fetch B url = Response status body -> ok status = true ->
  data (ListView.tryProxies B i (earlier ++ url :: later) acc) = Some body /\
  requested (ListView.tryProxies B i (earlier ++ url :: later) acc)
    = (requested acc ++ earlier ++ [url])%list.
Proof.
  induction earlier as [|u earlier IH]; intros i acc H Hurl Hok; simpl.
  - rewrite Hurl, Hok. split; reflexivity.
  - pose proof (H u (or_introl eq_refl)) as Hu. unfold unanswered in Hu.
    destruct (fetch B u) as [e|st b].
    + destruct (IH (S i) {| data := data acc; lastError := Some e;
                            requested := (requested acc ++ [u])%list |}) as [-> ->];
        [tail_of H | assumption | assumption |].
      log_step.
    + destruct (ok st); [discriminate|].
      destruct (IH (S i) {| data := data acc;
                            lastError := Some (proxyFailed (S i) st);
                            requested := (requested acc ++ [u])%list |}) as [-> ->];
        [tail_of H | assumption | assumption |].
      log_step.
Qed.

(** While every attempt is rejected the loop requests every proxy. *)
Lemma detail_all_rejected B proxies : forall i acc,
  (forall u, In u proxies -> rejected B u = true) ->
  requested (DetailView.tryProxies B i proxies acc) = (requested acc ++ proxies)%list.
Proof.
  induction proxies as [|u proxies IH]; intros i acc H; simpl.
  - rewrite app_nil_r. reflexivity.
  - pose proof (H u (or_introl eq_refl)) as Hu. unfold rejected in Hu.
    assert (H' : forall v, In v proxies -> rejected B v = true)
      by tail_of H.
    destruct (fetch B u) as [e|status body].
    + rewrite (IH _ _ H'). log_step.
    + destruct (ok status); simpl in Hu.
      * rewrite Hu. rewrite (IH _ _ H'). log_step.
      * rewrite (IH _ _ H'). log_step.
Qed.

(** While every attempt is unanswered the loop also keeps [data]. *)
Lemma detail_all_unanswered B proxies : forall i acc,
  (forall u, In u proxies -> unanswered B u = true) ->
  data (DetailView.tryProxies B i proxies acc) = data acc.
Proof.
  induction proxies as [|u proxies IH]; intros i acc H; simpl.
  - reflexivity.
  - pose proof (H u (or_introl eq_refl)) as Hu. unfold unanswered in Hu.
    assert (H' : forall v, In v proxies -> unanswered B v = true)
      by tail_of H.
    destruct (fetch B u) as [e|status body].
    + rewrite (IH _ _ H'). reflexivity.
    + destruct (ok status); [discriminate|]. rewrite (IH _ _ H'). reflexivity.
Qed.

(** The loop ends at the first response with an ok status and a body
    without the error marker. *)
Lemma detail_first_answer B earlier url later status body : forall i acc,
  (forall u, In u earlier -> rejected B u = true) ->
  fetch B url = Response status body -> ok status = true ->
  DetailView.signalsError body = false ->
  data (DetailView.tryProxies B i (earlier ++ url :: later) acc) = Some body /\
  requested (DetailView.tryProxies B i (earlier ++ url :: later) acc)
    = (requested acc ++ earlier ++ [url])%list.
Proof.
  induction earlier as [|u earlier IH]; intros i acc H Hurl Hok Hmark; simpl.
  - rewrite Hurl, Hok, Hmark. split; reflexivity.
  - pose proof (H u (or_introl eq_refl)) as Hu. unfold rejected in Hu.
    assert (H' : forall v, In v earlier -> rejected B v = true)
      by tail_of H.
    destruct (fetch B u) as [e|st b].
    + destruct (IH (S i) {| data := data acc; lastError := Some e;
                            requested := (requested acc ++ [u])%list |}
                  H' Hurl Hok Hmark) as [-> ->].
      log_step.
    + destruct (ok st); simpl in Hu.
      * rewrite Hu.
        destruct (IH (S i) {| data := Some b; lastError := lastError acc;
                              requested := (requested acc ++ [u])%list |}
                    H' Hurl Hok Hmark) as [-> ->].
        log_step.
      * destruct (IH (S i) {| data := data acc;
                              lastError := Some (proxyFailed (S i) st);
                              requested := (requested acc ++ [u])%list |}
                    H' Hurl Hok Hmark) as [-> ->].
        log_step.
Qed.

(* ===================================================================== *)
(** ** Sorting and rendering the list *)
(* ===================================================================== *)

Lemma insert_Permutation {A} (cmp : A -> A -> option Z) x l :
  Permutation (JS.insert cmp x l) (x :: l).
Proof.
  induction l as [|y l IH]; simpl; [reflexivity|].
  destruct (JS.keepsBefore cmp x y); [reflexivity|].
  rewrite IH. apply perm_swap.
Qed.

Lemma sort_Permutation {A} (cmp : A -> A -> option Z) l :
  Permutation (JS.sort cmp l) l.
Proof.
  induction l as [|x l IH]; simpl; [reflexivity|].
  rewrite insert_Permutation. constructor. exact IH.
Qed.

Lemma newerOrEqual_trans B a b c :
  newerOrEqual B a b -> newerOrEqual B b c -> newerOrEqual B a c.
Proof.
  intros (ta & tb & Ha & Hb & Hab) (tb' & tc & Hb' & Hc & Hbc).
  rewrite Hb in Hb'. injection Hb' as <-.
  exists ta, tc. repeat split; try assumption. lia.
Qed.

(** On papers with valid dates the comparator keeps [x] before [y] exactly
    when [x] is not the older of the two. *)
Lemma keepsBefore_valid B x y tx ty :
  dateValue B (ListView.published x) = Some tx ->
  dateValue B (ListView.published y) = Some ty ->
  JS.keepsBefore (ListView.byPublishedDesc B) x y = (ty <=? tx)%Z.
Proof.
  intros Hx Hy. unfold JS.keepsBefore, ListView.byPublishedDesc. rewrite Hx, Hy.
  destruct (Z.leb_spec (ty - tx) 0), (Z.leb_spec ty tx); try reflexivity; lia.
Qed.

Lemma insert_sorted B x l :
  present (dateValue B (ListView.published x)) = true ->
  Forall (fun p => present (dateValue B (ListView.published p)) = true) l ->
  StronglySorted (newerOrEqual B) l ->
  StronglySorted (newerOrEqual B) (JS.insert (ListView.byPublishedDesc B) x l).
Proof.
  intros Hx Hl Hs.
  destruct (dateValue B (ListView.published x)) as [tx|] eqn:Ex; [clear Hx|discriminate].
  induction Hs as [|y l Hs IH Hy]; simpl.
  - repeat constructor.
  - apply Forall_cons_1 in Hl as [Hvy Hl].
    destruct (dateValue B (ListView.published y)) as [ty|] eqn:Ey; [|discriminate].
    rewrite (keepsBefore_valid B x y tx ty Ex Ey).
    destruct (Z.leb_spec ty tx) as [Hle|Hlt].
    + assert (Hxy : newerOrEqual B x y) by (exists tx, ty; auto).
      constructor; [constructor; assumption|].
      constructor; [exact Hxy|].
      eapply Forall_impl; [exact Hy|]. intros z Hz. cbv beta in Hz.
      exact (newerOrEqual_trans B x y z Hxy Hz).
    + constructor; [exact (IH Hl)|].
      assert (Hyx : newerOrEqual B y x) by (exists ty, tx; repeat split; auto; lia).
      apply List.Forall_forall. intros z Hz.
      apply (Permutation_in _ (insert_Permutation _ x l)) in Hz.
      destruct Hz as [<-|Hz]; [exact Hyx|].
      rewrite List.Forall_forall in Hy. exact (Hy z Hz).
Qed.

Lemma sort_sorted B l :
  Forall (fun p => present (dateValue B (ListView.published p)) = true) l ->
  StronglySorted (newerOrEqual B) (JS.sort (ListView.byPublishedDesc B) l).
Proof.
  induction 1 as [|x l Hx Hl IH]; simpl; [constructor|].
  apply insert_sorted; [exact Hx| |exact IH].
  apply List.Forall_forall. intros z Hz.
  apply (Permutation_in _ (sort_Permutation _ l)) in Hz.
  rewrite List.Forall_forall in Hl. exact (Hl z Hz).
Qed.

Lemma selected_valid B category papers :
  Forall (fun p => present (dateValue B (ListView.published p)) = true) papers ->
  Forall (fun p => present (dateValue B (ListView.published p)) = true)
         (selected category papers).
Proof.
  intros H. unfold selected. destruct (String.eqb category "all"); [exact H|].
  apply List.Forall_forall. intros z Hz. apply List.filter_In in Hz as [Hz _].
  rewrite List.Forall_forall in H. exact (H z Hz).
Qed.

(** What [renderPaperList] leaves in the container, when there is one. *)
Lemma renderPaperList_container B papers st c :
  ListView.papersContainer st = Some c ->
  ListView.papersContainer (snd (ListView.renderPaperList B papers st)) =
    Some (match selected (ListView.currentCategory st) papers with
          | [] => ListView.NoPapersFound
          | _ => ListView.PaperItems
                   (JS.sort (ListView.byPublishedDesc B)
                            (selected (ListView.currentCategory st) papers))
          end).
Proof.
  intros Hc. unfold ListView.renderPaperList, selected. rewrite Hc.
  destruct (String.eqb (ListView.currentCategory st) "all").
  - destruct papers; reflexivity.
  - destruct (List.filter _ papers); reflexivity.
Qed.

(** The array the call leaves behind holds the papers it was given. *)
Lemma renderPaperList_array B papers st :
  Permutation (fst (ListView.renderPaperList B papers st)) papers.
Proof.
  unfold ListView.renderPaperList.
  destruct (ListView.papersContainer st); [|reflexivity].
  destruct (String.eqb (ListView.currentCategory st) "all").
  - destruct papers; [reflexivity|]. cbn [length Nat.eqb fst]. apply sort_Permutation.
  - destruct (List.filter _ papers); reflexivity.
Qed.

(** C10 (as amended). Whatever the order of the records and whatever the
    selected category, when the [published] string of every record is a valid
    date the papers [renderPaperList] puts in the container are the selected
    papers, newest first. *)
Theorem rendered_papers_newest_first (B : Browser) (papers : list ListView.Paper)
    (st : ListView.State) :
  Forall (fun p => present (dateValue B (ListView.published p)) = true) papers ->
  let shown := ListView.shownPapers
                 (ListView.papersContainer (snd (ListView.renderPaperList B papers st))) in
  StronglySorted (newerOrEqual B) shown /\
  (ListView.papersContainer st <> None ->
   Permutation shown (selected (ListView.currentCategory st) papers)).
Proof.
  intros Hvalid shown. subst shown.
  destruct (ListView.papersContainer st) as [c|] eqn:Hc.
  - rewrite (renderPaperList_container B papers st c Hc).
    pose proof (selected_valid B (ListView.currentCategory st) papers Hvalid) as Hsel.
    destruct (selected (ListView.currentCategory st) papers) as [|p sel] eqn:Esel.
    + simpl. split; [constructor | reflexivity].
    + cbn [ListView.shownPapers]. split.
      * apply sort_sorted. exact Hsel.
      * intros _. apply sort_Permutation.
  - unfold ListView.renderPaperList. rewrite Hc. cbn [snd]. rewrite Hc.
    split; [constructor | congruence].
Qed.

Lemma rendered_papers_newest_first_witness :
  Forall (fun p => present (dateValue Fixtures.thirdAnswers (ListView.published p)) = true)
         [Fixtures.paper2312; Fixtures.paper2401] /\
  let shown := ListView.shownPapers
                 (ListView.papersContainer
                    (snd (ListView.renderPaperList Fixtures.thirdAnswers
                            [Fixtures.paper2312; Fixtures.paper2401] Fixtures.page))) in
  StronglySorted (newerOrEqual Fixtures.thirdAnswers) shown /\
  (ListView.papersContainer Fixtures.page <> None ->
   Permutation shown
     (selected (ListView.currentCategory Fixtures.page)
               [Fixtures.paper2312; Fixtures.paper2401])).
Proof.
  assert (H : Forall (fun p => present (dateValue Fixtures.thirdAnswers
                                          (ListView.published p)) = true)
                     [Fixtures.paper2312; Fixtures.paper2401]).
  { repeat constructor. }
  split; [exact H|].
  exact (rendered_papers_newest_first Fixtures.thirdAnswers
           [Fixtures.paper2312; Fixtures.paper2401] Fixtures.page H).
Defined.

(** The older paper comes first in the array and second in the container. *)
Example rendered_papers_example :
  ListView.shownPapers
    (ListView.papersContainer
       (snd (ListView.renderPaperList Fixtures.thirdAnswers
               [Fixtures.paper2312; Fixtures.paper2401] Fixtures.page)))
  = [Fixtures.paper2401; Fixtures.paper2312].
Proof. vm_compute. reflexivity. Qed.

(** A list of two or more papers sorted newest first holds dated papers only. *)
Lemma sorted_all_dated B l :
  StronglySorted (newerOrEqual B) l -> 2 <= length l ->
  Forall (fun p => present (dateValue B (ListView.published p)) = true) l.
Proof.
  intros Hs Hlen. destruct Hs as [|a l Hs Ha]; [constructor|].
  destruct l as [|b l]; [simpl in Hlen; lia|].
  constructor.
  - apply Forall_cons_1 in Ha as [(ta & tb & -> & _) _]. reflexivity.
  - eapply Forall_impl; [exact Ha|]. intros z (ta & tz & _ & -> & _). reflexivity.
Qed.

(** C10 (as stated) fails: with a record whose [published] string is empty
    between a paper of 2023 and a paper of 2024, every comparison with that
    record gives NaN, the array stays as it is, and the paper of 2023 is
    rendered before the paper of 2024. No order of these three records is
    sorted by timestamp. *)
Lemma undated_record_breaks_the_order :
  let B := Fixtures.thirdAnswers in
  let papers := [Fixtures.paper2312; Fixtures.undated; Fixtures.paper2401] in
  ListView.shownPapers
    (ListView.papersContainer (snd (ListView.renderPaperList B papers Fixtures.page)))
    = [Fixtures.paper2312; Fixtures.undated; Fixtures.paper2401] /\
  ~ newerOrEqual B Fixtures.paper2312 Fixtures.paper2401 /\
  (forall l, Permutation l papers -> ~ StronglySorted (newerOrEqual B) l).
Proof.
  cbv zeta. split; [vm_compute; reflexivity|]. split.
  - intros (ta & tb & Ha & Hb & Hle). vm_compute in Ha, Hb.
    injection Ha as <-. injection Hb as <-. lia.
  - intros l Hperm Hs.
    assert (Hlen : 2 <= length l)
      by (rewrite (Permutation_length Hperm); simpl; lia).
    pose proof (sorted_all_dated _ l Hs Hlen) as Hall.
    rewrite List.Forall_forall in Hall.
    assert (Hin : In Fixtures.undated l).
    { apply (Permutation_in _ (Permutation_sym Hperm)). right. left. reflexivity. }
    specialize (Hall _ Hin). vm_compute in Hall. discriminate.
Qed.

(* ===================================================================== *)
(** ** The fetch pipeline *)
(* ===================================================================== *)

(** *** How far the loops go *)

Lemma list_grows B proxies : forall i acc,
  exists r, requested (ListView.tryProxies B i proxies acc) = (requested acc ++ r)%list.
Proof.
  induction proxies as [|u proxies IH]; intros i acc; simpl.
  - exists []. rewrite app_nil_r. reflexivity.
  - destruct (fetch B u) as [e|status body]; [|destruct (ok status)].
    + edestruct IH as [r ->]. exists (u :: r). log_step.
    + exists [u]. reflexivity.
    + edestruct IH as [r ->]. exists (u :: r). log_step.
Qed.

Lemma list_head B u proxies i acc :
  exists r, requested (ListView.tryProxies B i (u :: proxies) acc)
            = (requested acc ++ u :: r)%list.
Proof.
  simpl. destruct (fetch B u) as [e|status body]; [|destruct (ok status)].
  - edestruct list_grows as [r ->]. exists r. log_step.
  - exists []. reflexivity.
  - edestruct list_grows as [r ->]. exists r. log_step.
Qed.

Lemma list_skip B pre rest : forall i acc,
  (forall u, In u pre -> unanswered B u = true) ->
  exists j acc', requested acc' = (requested acc ++ pre)%list /\
    ListView.tryProxies B i (pre ++ rest) acc = ListView.tryProxies B j rest acc'.
Proof.
  induction pre as [|u pre IH]; intros i acc H.
  - exists i, acc. rewrite app_nil_r. split; reflexivity.
  - pose proof (H u (or_introl eq_refl)) as Hu. unfold unanswered in Hu.
    assert (H' : forall v, In v pre -> unanswered B v = true)
      by tail_of H.
    simpl. destruct (fetch B u) as [e|status body]; [|destruct (ok status); [discriminate|]].
    + edestruct (IH (S i)) as (j & acc' & Hreq & ->); [exact H'|].
      exists j, acc'. split; [|reflexivity]. rewrite Hreq. log_step.
    + edestruct (IH (S i)) as (j & acc' & Hreq & ->); [exact H'|].
      exists j, acc'. split; [|reflexivity]. rewrite Hreq. log_step.
Qed.

Lemma list_none B proxies : forall i acc,
  data (ListView.tryProxies B i proxies acc) = None ->
  requested (ListView.tryProxies B i proxies acc) = (requested acc ++ proxies)%list.
Proof.
  induction proxies as [|u proxies IH]; intros i acc; simpl.
  - rewrite app_nil_r. reflexivity.
  - destruct (fetch B u) as [e|status body]; [|destruct (ok status)].
    + intros H. rewrite (IH _ _ H). log_step.
    + discriminate.
    + intros H. rewrite (IH _ _ H). log_step.
Qed.

Lemma detail_grows B proxies : forall i acc,
  exists r, requested (DetailView.tryProxies B i proxies acc) = (requested acc ++ r)%list.
Proof.
  induction proxies as [|u proxies IH]; intros i acc; simpl.
  - exists []. rewrite app_nil_r. reflexivity.
  - destruct (fetch B u) as [e|status body];
      [|destruct (ok status); [destruct (DetailView.signalsError body)|]].
    + edestruct IH as [r ->]. exists (u :: r). log_step.
    + edestruct IH as [r ->]. exists (u :: r). log_step.
    + exists [u]. reflexivity.
    + edestruct IH as [r ->]. exists (u :: r). log_step.
Qed.

Lemma detail_head B u proxies i acc :
  exists r, requested (DetailView.tryProxies B i (u :: proxies) acc)
            = (requested acc ++ u :: r)%list.
Proof.
  simpl. destruct (fetch B u) as [e|status body];
    [|destruct (ok status); [destruct (DetailView.signalsError body)|]].
  - edestruct detail_grows as [r ->]. exists r. log_step.
  - edestruct detail_grows as [r ->]. exists r. log_step.
  - exists []. reflexivity.
  - edestruct detail_grows as [r ->]. exists r. log_step.
Qed.

Lemma detail_skip B pre rest : forall i acc,
  (forall u, In u pre -> rejected B u = true) ->
  exists j acc', requested acc' = (requested acc ++ pre)%list /\
    DetailView.tryProxies B i (pre ++ rest) acc = DetailView.tryProxies B j rest acc'.
Proof.
  induction pre as [|u pre IH]; intros i acc H.
  - exists i, acc. rewrite app_nil_r. split; reflexivity.
  - pose proof (H u (or_introl eq_refl)) as Hu. unfold rejected in Hu.
    assert (H' : forall v, In v pre -> rejected B v = true)
      by tail_of H.
    simpl. destruct (fetch B u) as [e|status body];
      [|destruct (ok status); [simpl in Hu; rewrite Hu|]].
    + edestruct (IH (S i)) as (j & acc' & Hreq & ->); [exact H'|].
      exists j, acc'. split; [|reflexivity]. rewrite Hreq. log_step.
    + edestruct (IH (S i)) as (j & acc' & Hreq & ->); [exact H'|].
      exists j, acc'. split; [|reflexivity]. rewrite Hreq. log_step.
    + edestruct (IH (S i)) as (j & acc' & Hreq & ->); [exact H'|].
      exists j, acc'. split; [|reflexivity]. rewrite Hreq. log_step.
Qed.

(** Once set, [data] is never cleared: a body with the error marker stays
    in [data] while the loop goes on. *)
Lemma detail_data_kept B proxies : forall i acc,
  data acc <> None -> data (DetailView.tryProxies B i proxies acc) <> None.
Proof.
  induction proxies as [|u proxies IH]; intros i acc H; simpl; [exact H|].
  destruct (fetch B u) as [e|status body];
    [|destruct (ok status); [destruct (DetailView.signalsError body)|]].
  - apply IH. exact H.
  - apply IH. discriminate.
  - discriminate.
  - apply IH. exact H.
Qed.

Lemma detail_none B proxies : forall i acc,
  data (DetailView.tryProxies B i proxies acc) = None ->
  requested (DetailView.tryProxies B i proxies acc) = (requested acc ++ proxies)%list.
Proof.
  induction proxies as [|u proxies IH]; intros i acc; simpl.
  - rewrite app_nil_r. reflexivity.
  - destruct (fetch B u) as [e|status body];
      [|destruct (ok status); [destruct (DetailView.signalsError body)|]].
    + intros H. rewrite (IH _ _ H). log_step.
    + intros H. exfalso. revert H. apply detail_data_kept. discriminate.
    + discriminate.
    + intros H. rewrite (IH _ _ H). log_step.
Qed.

Lemma validAttempt_inv B url body :
  validAttempt B url = Some body ->
  exists status, fetch B url = Response status body /\ ok status = true.
Proof.
  unfold validAttempt. destruct (fetch B url) as [e|status b]; [discriminate|].
  destruct (ok status) eqn:Hok; [|discriminate]. simpl.
  destruct (validBody B b); [|discriminate].
  intros H. injection H as <-. exists status. split; [reflexivity | assumption].
Qed.

(** The detail loop goes past a response whose body holds the error marker:
    after rejected attempts and such a response it requests the next proxy. *)
Lemma detail_past_marked B earlier url next later status body :
  (forall u, In u earlier -> rejected B u = true) ->
  fetch B url = Response status body -> ok status = true ->
  DetailView.signalsError body = true ->
  exists rest,
    requested (DetailView.tryProxies B 0 (earlier ++ url :: next :: later) noAttempts)
    = (earlier ++ url :: next :: rest)%list.
Proof.
  intros Hearlier Hurl Hok Hmark.
  assert (H : forall u, In u (earlier ++ [url]) -> rejected B u = true).
  { intros u Hin. apply in_app_or in Hin as [Hin|[<-|[]]]; [auto|].
    unfold rejected. rewrite Hurl, Hok, Hmark. reflexivity. }
  replace (earlier ++ url :: next :: later)%list
    with ((earlier ++ [url]) ++ next :: later)%list
    by (rewrite <- List.app_assoc; reflexivity).
  destruct (detail_skip B (earlier ++ [url]) (next :: later) 0 noAttempts H)
    as (j & acc' & Hreq & ->).
  destruct (detail_head B next later j acc') as [r ->].
  exists r. rewrite Hreq. log_step.
Qed.

Lemma unanswered_rejected B url : unanswered B url = true -> rejected B url = true.
Proof.
  unfold unanswered, rejected. destruct (fetch B url) as [e|status b]; [auto|].
  intros ->. reflexivity.
Qed.

Lemma answered_inv B url :
  negb (unanswered B url) = true ->
  exists status body, fetch B url = Response status body /\ ok status = true.
Proof.
  unfold unanswered. destruct (fetch B url) as [e|status b]; [discriminate|].
  destruct (ok status) eqn:Hok; [|discriminate]. eauto.
Qed.

Lemma accepted_inv B url :
  negb (rejected B url) = true ->
  exists status body, fetch B url = Response status body /\ ok status = true /\
                      DetailView.signalsError body = false.
Proof.
  unfold rejected. destruct (fetch B url) as [e|status b]; [discriminate|].
  destruct (ok status) eqn:Hok; [|discriminate]. simpl.
  destruct (DetailView.signalsError b) eqn:Hmark; [discriminate|]. eauto.
Qed.

Lemma negb_false_all {A} (f : A -> bool) (l : list A) :
  (forall x, In x l -> negb (f x) = false) -> forall x, In x l -> f x = true.
Proof. intros H x Hx. apply negb_false_iff. auto. Qed.

(** The list loop requests nothing beyond a proxy that answers. *)
Lemma list_requested_upto B earlier url later status body :
  fetch B url = Response status body -> ok status = true ->
  exists rest,
    (earlier ++ [url])%list =
    (requested (ListView.tryProxies B 0 (earlier ++ url :: later) noAttempts) ++ rest)%list.
Proof.
  intros Hurl Hok.
  destruct (first_true_split (fun u => negb (unanswered B u)) earlier)
    as [Hall|(pre & x & post & -> & Hx & Hpre)].
  - destruct (list_first_answer B earlier url later status body 0 noAttempts
                (negb_false_all _ _ Hall) Hurl Hok) as [_ ->].
    exists []. rewrite app_nil_r. reflexivity.
  - destruct (answered_inv B x Hx) as (st & b & Hfx & Hokx).
    rewrite <- (List.app_assoc pre (x :: post) (url :: later)). cbn [app].
    destruct (list_first_answer B pre x (post ++ url :: later) st b 0 noAttempts
                (negb_false_all _ _ Hpre) Hfx Hokx) as [_ ->].
    exists (post ++ [url])%list. cbn [requested noAttempts app].
    rewrite <- !List.app_assoc. reflexivity.
Qed.

(** The detail loop requests nothing beyond a proxy that answers with a
    body free of the error marker. *)
Lemma detail_requested_upto B earlier url later status body :
  fetch B url = Response status body -> ok status = true ->
  DetailView.signalsError body = false ->
  exists rest,
    (earlier ++ [url])%list =
    (requested (DetailView.tryProxies B 0 (earlier ++ url :: later) noAttempts) ++ rest)%list.
Proof.
  intros Hurl Hok Hmark.
  destruct (first_true_split (fun u => negb (rejected B u)) earlier)
    as [Hall|(pre & x & post & -> & Hx & Hpre)].
  - destruct (detail_first_answer B earlier url later status body 0 noAttempts
                (negb_false_all _ _ Hall) Hurl Hok Hmark) as [_ ->].
    exists []. rewrite app_nil_r. reflexivity.
  - destruct (accepted_inv B x Hx) as (st & b & Hfx & Hokx & Hmx).
    rewrite <- (List.app_assoc pre (x :: post) (url :: later)). cbn [app].
    destruct (detail_first_answer B pre x (post ++ url :: later) st b 0 noAttempts
                (negb_false_all _ _ Hpre) Hfx Hokx Hmx) as [_ ->].
    exists (post ++ [url])%list. cbn [requested noAttempts app].
    rewrite <- !List.app_assoc. reflexivity.
Qed.

(** C1 (as amended). Let the proxy [url], after the proxies [earlier], be one
    whose attempt yields a structurally valid body. The list loop requests no
    proxy after [url], and when every earlier attempt is unanswered it ends
    with exactly that body after requesting [earlier] and [url], in order.
    The detail loop does the same when the body is free of the error marker
    (for the body: when every earlier attempt is unanswered or carries the
    marker). When the body does hold the marker and every earlier attempt is
    rejected, the detail loop goes on and requests the proxy after [url]. *)
Theorem first_valid_body_returned (B : Browser) (earlier later : list string)
    (url body : string) :
  validAttempt B url = Some body ->
  let proxies := (earlier ++ url :: later)%list in
  let list := ListView.tryProxies B 0 proxies noAttempts in
  let detail := DetailView.tryProxies B 0 proxies noAttempts in
  (exists rest, (earlier ++ [url])%list = (requested list ++ rest)%list) /\
  ((forall u, In u earlier -> unanswered B u = true) ->
   data list = Some body /\ requested list = (earlier ++ [url])%list) /\
  (DetailView.signalsError body = false ->
   (exists rest, (earlier ++ [url])%list = (requested detail ++ rest)%list) /\
   ((forall u, In u earlier -> rejected B u = true) ->
    data detail = Some body /\ requested detail = (earlier ++ [url])%list)) /\
  (DetailView.signalsError body = true ->
   (forall u, In u earlier -> rejected B u = true) ->
   forall next later', later = next :: later' ->
   exists rest, requested detail = (earlier ++ url :: next :: rest)%list).
Proof.
  intros Hvalid proxies list detail. subst proxies list detail.
  destruct (validAttempt_inv B url body Hvalid) as (status & Hurl & Hok).
  split; [exact (list_requested_upto B earlier url later status body Hurl Hok)|].
  split; [|split].
  - intros Hearlier.
    exact (list_first_answer B earlier url later status body 0 noAttempts
             Hearlier Hurl Hok).
  - intros Hmark. split.
    + exact (detail_requested_upto B earlier url later status body Hurl Hok Hmark).
    + intros Hearlier.
      exact (detail_first_answer B earlier url later status body 0 noAttempts
               Hearlier Hurl Hok Hmark).
  - intros Hmark Hearlier next later' ->.
    exact (detail_past_marked B earlier url next later' status body
             Hearlier Hurl Hok Hmark).
Qed.

Lemma first_valid_body_returned_witness :
  (let B := Fixtures.thirdAnswers in
   let earlier := firstn 2 Fixtures.listProxies in
   let url := nth 2 Fixtures.listProxies "" in
   validAttempt B url = Some Fixtures.feedXml /\
   (forall u, In u earlier -> unanswered B u = true) /\
   DetailView.signalsError Fixtures.feedXml = false /\
   (data (ListView.tryProxies B 0 (earlier ++ [url]) noAttempts) = Some Fixtures.feedXml /\
    requested (ListView.tryProxies B 0 (earlier ++ [url]) noAttempts)
      = (earlier ++ [url])%list) /\
   (data (DetailView.tryProxies B 0 (earlier ++ [url]) noAttempts) = Some Fixtures.feedXml /\
    requested (DetailView.tryProxies B 0 (earlier ++ [url]) noAttempts)
      = (earlier ++ [url])%list)) /\
  (let B := Fixtures.boundsFirst in
   let p1 := nth 0 (DetailView.proxies B "2402.00005") "" in
   let p2 := nth 1 (DetailView.proxies B "2402.00005") "" in
   let p3 := nth 2 (DetailView.proxies B "2402.00005") "" in
   validAttempt B p1 = Some Fixtures.errorBoundsXml /\
   DetailView.signalsError Fixtures.errorBoundsXml = true /\
   exists rest,
     requested (DetailView.tryProxies B 0 [p1; p2; p3] noAttempts) = p1 :: p2 :: rest).
Proof.
  split.
  - intros B earlier url.
    assert (Hv : validAttempt B url = Some Fixtures.feedXml) by (vm_compute; reflexivity).
    assert (Hu : forall u, In u earlier -> unanswered B u = true).
    { intros u Hin. vm_compute in Hin. destruct Hin as [<-|[<-|[]]]; vm_compute; reflexivity. }
    assert (Hm : DetailView.signalsError Fixtures.feedXml = false)
      by (vm_compute; reflexivity).
    destruct (first_valid_body_returned B earlier [] url Fixtures.feedXml Hv)
      as (_ & Hlist & Hdetail & _).
    split; [exact Hv|]. split; [exact Hu|]. split; [exact Hm|]. split.
    + exact (Hlist Hu).
    + exact (proj2 (Hdetail Hm) (fun u Hin => unanswered_rejected B u (Hu u Hin))).
  - intros B p1 p2 p3.
    assert (Hv : validAttempt B p1 = Some Fixtures.errorBoundsXml)
      by (vm_compute; reflexivity).
    assert (Hm : DetailView.signalsError Fixtures.errorBoundsXml = true)
      by (vm_compute; reflexivity).
    destruct (first_valid_body_returned B [] [p2; p3] p1 Fixtures.errorBoundsXml Hv)
      as (_ & _ & _ & Hpast).
    split; [exact Hv|]. split; [exact Hm|].
    exact (Hpast Hm (fun u (H : In u []) => match H with end) p2 [p3] eq_refl).
Defined.

(** C1 (as stated) fails twice. Proxy 1 answers 200 with a page that is not
    XML and proxy 2 is the first with a valid body: both loops end with the
    page of proxy 1. And in the detail view proxy 1 is the first with a valid
    body, the feed of a paper on error bounds: the loop goes on to proxy 2
    and ends with the body of proxy 2. *)
Lemma first_valid_body_not_returned :
  (let B := Fixtures.busyFirst in
   let list := ListView.proxies B in
   let detail := DetailView.proxies B "2312.00001" in
   (validAttempt B (nth 0 list "") = None /\
    validAttempt B (nth 1 list "") = Some Fixtures.feedXml /\
    data (ListView.tryProxies B 0 list noAttempts) = Some Fixtures.busy) /\
   (validAttempt B (nth 0 detail "") = None /\
    validAttempt B (nth 1 detail "") = Some Fixtures.feedXml /\
    data (DetailView.tryProxies B 0 detail noAttempts) = Some Fixtures.busy) /\
   Fixtures.busy <> Fixtures.feedXml) /\
  (let B := Fixtures.boundsFirst in
   let detail := DetailView.proxies B "2402.00005" in
   validAttempt B (nth 0 detail "") = Some Fixtures.errorBoundsXml /\
   entries (parseFromString B Fixtures.errorBoundsXml) = [Fixtures.entryErrorBounds] /\
   requested (DetailView.tryProxies B 0 detail noAttempts)
     = [nth 0 detail ""; nth 1 detail ""] /\
   data (DetailView.tryProxies B 0 detail noAttempts) = Some Fixtures.feedXml /\
   Fixtures.feedXml <> Fixtures.errorBoundsXml).
Proof.
  cbv zeta. repeat split; try (vm_compute; reflexivity); discriminate.
Qed.

(** *** Going on after a failed attempt *)

(** C2 (as amended). An attempt that ends with a status that is not ok or
    with an exception, and in the detail view also one whose body holds the
    error marker, is followed by a request to the next proxy; and a loop
    that ends with [data] never assigned has requested every proxy. A
    response with an ok status, whatever its body (empty or not, well-formed
    or not), ends the list loop at its proxy; it ends the detail loop at its
    proxy when the body is free of the error marker. *)
Theorem failed_attempt_moves_on (B : Browser) (earlier later : list string)
    (url next : string) :
  let proxies := (earlier ++ url :: next :: later)%list in
  let list := ListView.tryProxies B 0 proxies noAttempts in
  let detail := DetailView.tryProxies B 0 proxies noAttempts in
  ((forall u, In u (earlier ++ [url]) -> unanswered B u = true) ->
   exists rest, requested list = (earlier ++ url :: next :: rest)%list) /\
  ((forall u, In u (earlier ++ [url]) -> rejected B u = true) ->
   exists rest, requested detail = (earlier ++ url :: next :: rest)%list) /\
  (data list = None -> requested list = proxies) /\
  (data detail = None -> requested detail = proxies) /\
  (forall status body,
     fetch B url = Response status body -> ok status = true ->
     (forall u, In u earlier -> unanswered B u = true) ->
     data list = Some body /\ requested list = (earlier ++ [url])%list) /\
  (forall status body,
     fetch B url = Response status body -> ok status = true ->
     DetailView.signalsError body = false ->
     (forall u, In u earlier -> rejected B u = true) ->
     data detail = Some body /\ requested detail = (earlier ++ [url])%list).
Proof.
  intros proxies list detail. subst list detail.
  assert (E : proxies = ((earlier ++ [url]) ++ next :: later)%list)
    by (subst proxies; rewrite <- List.app_assoc; reflexivity).
  split; [|split; [|split; [|split; [|split]]]].
  - intros H. rewrite E.
    destruct (list_skip B (earlier ++ [url]) (next :: later) 0 noAttempts H)
      as (j & acc' & Hreq & ->).
    destruct (list_head B next later j acc') as [r ->].
    exists r. rewrite Hreq. log_step.
  - intros H. rewrite E.
    destruct (detail_skip B (earlier ++ [url]) (next :: later) 0 noAttempts H)
      as (j & acc' & Hreq & ->).
    destruct (detail_head B next later j acc') as [r ->].
    exists r. rewrite Hreq. log_step.
  - intros H. exact (list_none B proxies 0 noAttempts H).
  - intros H. exact (detail_none B proxies 0 noAttempts H).
  - intros status body Hurl Hok Hearlier.
    exact (list_first_answer B earlier url (next :: later) status body 0 noAttempts
             Hearlier Hurl Hok).
  - intros status body Hurl Hok Hmark Hearlier.
    exact (detail_first_answer B earlier url (next :: later) status body 0 noAttempts
             Hearlier Hurl Hok Hmark).
Qed.

Lemma failed_attempt_moves_on_witness :
  (let B := Fixtures.downAll in
   let p1 := nth 0 Fixtures.listProxies "" in
   let p2 := nth 1 Fixtures.listProxies "" in
   let p3 := nth 2 Fixtures.listProxies "" in
   let list := ListView.tryProxies B 0 [p1; p2; p3] noAttempts in
   let detail := DetailView.tryProxies B 0 [p1; p2; p3] noAttempts in
   (forall u, In u [p1; p2] -> unanswered B u = true) /\
   (data list = None /\ data detail = None) /\
   (exists rest, requested list = p1 :: p2 :: p3 :: rest) /\
   (exists rest, requested detail = p1 :: p2 :: p3 :: rest) /\
   requested list = [p1; p2; p3] /\ requested detail = [p1; p2; p3]) /\
  (let B := Fixtures.emptyFirst in
   let p1 := nth 0 Fixtures.listProxies "" in
   let p2 := nth 1 Fixtures.listProxies "" in
   let p3 := nth 2 Fixtures.listProxies "" in
   let list := ListView.tryProxies B 0 [p1; p2; p3] noAttempts in
   let detail := DetailView.tryProxies B 0 [p1; p2; p3] noAttempts in
   fetch B p1 = Response 200 "" /\ ok 200%Z = true /\
   DetailView.signalsError "" = false /\
   (data list = Some "" /\ requested list = [p1]) /\
   (data detail = Some "" /\ requested detail = [p1])).
Proof.
  split.
  - intros B p1 p2 p3 list detail.
    assert (Hu : forall u, In u ([p1] ++ [p2]) -> unanswered B u = true).
    { intros u Hin. vm_compute in Hin. destruct Hin as [<-|[<-|[]]]; vm_compute; reflexivity. }
    assert (Hl : data list = None) by (vm_compute; reflexivity).
    assert (Hd : data detail = None) by (vm_compute; reflexivity).
    destruct (failed_attempt_moves_on B [p1] [] p2 p3) as (H1 & H2 & H3 & H4 & _).
    split; [exact Hu|]. split; [split; assumption|].
    split; [exact (H1 Hu)|].
    split; [exact (H2 (fun u Hin => unanswered_rejected B u (Hu u Hin)))|].
    split; [exact (H3 Hl) | exact (H4 Hd)].
  - intros B p1 p2 p3 list detail.
    assert (Hf : fetch B p1 = Response 200 "") by (vm_compute; reflexivity).
    assert (Hok : ok 200%Z = true) by (vm_compute; reflexivity).
    assert (Hm : DetailView.signalsError "" = false) by (vm_compute; reflexivity).
    destruct (failed_attempt_moves_on B [] [p3] p1 p2) as (_ & _ & _ & _ & H5 & H6).
    split; [exact Hf|]. split; [exact Hok|]. split; [exact Hm|]. split.
    + exact (H5 200%Z "" Hf Hok (fun u (H : In u []) => match H with end)).
    + exact (H6 200%Z "" Hf Hok Hm (fun u (H : In u []) => match H with end)).
Defined.

(** C2 (as stated) fails: proxy 1 answers 200 with an empty body; both loops
    end there, without a request to proxy 2 or 3, and both views then go to
    their sample data. *)
Lemma empty_body_ends_the_loop :
  let B := Fixtures.emptyFirst in
  let list := ListView.proxies B in
  let detail := DetailView.proxies B "2312.00001" in
  (length list = 3 /\ fetch B (nth 0 list "") = Response 200 "" /\
   requested (ListView.tryProxies B 0 list noAttempts) = [nth 0 list ""] /\
   ListView.papersContainer (ListView.loadPapersForToday B Fixtures.page)
     = Some (ListView.ErrorMessage "Using sample data: API proxies unavailable")) /\
  (length detail = 3 /\ fetch B (nth 0 detail "") = Response 200 "" /\
   requested (DetailView.tryProxies B 0 detail noAttempts) = [nth 0 detail ""] /\
   DetailView.fetchPaperDetails B "2312.00001"
     = DetailView.displaySamplePaperDetails B "2312.00001" /\
   exists paper,
     DetailView.displaySamplePaperDetails B "2312.00001"
     = JS.Normal
         {| DetailView.paperDetail := DetailView.SampleDetails paper;
            DetailView.citationButtons :=
              Some {| DetailView.citeId := "2312.00001";
                      DetailView.citeTitle := DetailView.title paper;
                      DetailView.citeAuthors := DetailView.authors paper;
                      DetailView.citePublished := DetailView.published paper |} |}).
Proof.
  cbv zeta. repeat split; try (vm_compute; reflexivity).
  exists DetailView.genericSamplePaper. vm_compute. reflexivity.
Qed.

(** *** When no proxy answers *)

Lemma papersData_showLoadingIndicator show st :
  ListView.papersData (ListView.showLoadingIndicator show st) = ListView.papersData st.
Proof. unfold ListView.showLoadingIndicator. destruct (ListView.loadingIndicator st); reflexivity. Qed.

Lemma papersContainer_showLoadingIndicator show st :
  ListView.papersContainer (ListView.showLoadingIndicator show st)
  = ListView.papersContainer st.
Proof. unfold ListView.showLoadingIndicator. destruct (ListView.loadingIndicator st); reflexivity. Qed.

Lemma papersData_showError notice st :
  ListView.papersData (ListView.showError notice st) = ListView.papersData st.
Proof. unfold ListView.showError. destruct (ListView.papersContainer st); reflexivity. Qed.

Lemma papersData_renderPapersData B st :
  ListView.papersData (ListView.renderPapersData B st)
  = fst (ListView.renderPaperList B (ListView.papersData st) st).
Proof.
  unfold ListView.renderPapersData.
  destruct (ListView.renderPaperList B (ListView.papersData st) st). reflexivity.
Qed.

Lemma papersContainer_renderPapersData B st :
  ListView.papersContainer (ListView.renderPapersData B st)
  = ListView.papersContainer (snd (ListView.renderPaperList B (ListView.papersData st) st)).
Proof.
  unfold ListView.renderPapersData.
  destruct (ListView.renderPaperList B (ListView.papersData st) st). reflexivity.
Qed.

(** The fallback leaves the sample papers in [papersData] and the notice,
    in place of the list just rendered, in the container. *)
Lemma useSampleData_state B notice st :
  Permutation (ListView.papersData (ListView.useSampleData B notice st))
              (ListView.getSamplePapers B) /\
  (ListView.papersContainer st <> None ->
   ListView.papersContainer (ListView.useSampleData B notice st)
   = Some (ListView.ErrorMessage notice)).
Proof.
  unfold ListView.useSampleData. split.
  - rewrite papersData_showError, papersData_renderPapersData.
    apply renderPaperList_array.
  - intros Hc. unfold ListView.showError. rewrite papersContainer_renderPapersData.
    destruct (ListView.papersContainer st) as [c|] eqn:Ec; [|congruence].
    erewrite renderPaperList_container by exact Ec. reflexivity.
Qed.

(** When no proxy answers, the detail view ends as its call of
    [displaySamplePaperDetails] ends. *)
Lemma fetchDetailsFrom_unanswered B proxies id :
  (forall u, In u proxies -> unanswered B u = true) ->
  DetailView.fetchDetailsFrom B proxies id = DetailView.displaySamplePaperDetails B id.
Proof.
  intros H. unfold DetailView.fetchDetailsFrom.
  rewrite (detail_all_unanswered B proxies 0 noAttempts H). cbn [data noAttempts JS.falsy].
  destruct (DetailView.displaySamplePaperDetails B id); reflexivity.
Qed.

(** C3. When every attempt ends with a status that is not ok or with an
    exception, both loops end without a body, and the list view loads the
    records of [getSamplePapers]; but the notice is then written to the
    container those records were just rendered in, so the page shows the
    notice alone and not one record. The detail view ends as
    [displaySamplePaperDetails] ends. *)
Theorem sample_list_replaced_by_notice (B : Browser) (proxies : list string)
    (st : ListView.State) (id : string) :
  (forall u, In u proxies -> unanswered B u = true) ->
  ListView.papersContainer st <> None ->
  let st' := ListView.loadPapersFrom B proxies st in
  (data (ListView.tryProxies B 0 proxies noAttempts) = None /\
   data (DetailView.tryProxies B 0 proxies noAttempts) = None) /\
  Permutation (ListView.papersData st') (ListView.getSamplePapers B) /\
  ListView.papersContainer st'
    = Some (ListView.ErrorMessage "Using sample data: API proxies unavailable") /\
  ListView.shownPapers (ListView.papersContainer st') = [] /\
  DetailView.fetchDetailsFrom B proxies id = DetailView.displaySamplePaperDetails B id.
Proof.
  intros H Hc st'.
  destruct (list_all_unanswered B proxies 0 noAttempts H) as [Hlist _].
  pose proof (detail_all_unanswered B proxies 0 noAttempts H) as Hdetail.
  assert (E : st' = ListView.showLoadingIndicator false
            (ListView.useSampleData B "Using sample data: API proxies unavailable"
               (ListView.showLoadingIndicator true st))).
  { subst st'. unfold ListView.loadPapersFrom. rewrite Hlist. reflexivity. }
  destruct (useSampleData_state B "Using sample data: API proxies unavailable"
              (ListView.showLoadingIndicator true st)) as [Hperm Hcont].
  assert (Hnotice : ListView.papersContainer st'
            = Some (ListView.ErrorMessage "Using sample data: API proxies unavailable")).
  { rewrite E, papersContainer_showLoadingIndicator. apply Hcont.
    rewrite papersContainer_showLoadingIndicator. exact Hc. }
  split; [split; assumption|]. split; [|split; [exact Hnotice|split]].
  - rewrite E, papersData_showLoadingIndicator. exact Hperm.
  - rewrite Hnotice. reflexivity.
  - exact (fetchDetailsFrom_unanswered B proxies id H).
Qed.

Lemma sample_list_replaced_by_notice_witness :
  let B := Fixtures.downAll in
  let st' := ListView.loadPapersForToday B Fixtures.page in
  (forall u, In u (ListView.proxies B) -> unanswered B u = true) /\
  ListView.papersContainer Fixtures.page <> None /\
  ListView.getSamplePapers B = ListView.literalSamplePapers /\
  length (ListView.getSamplePapers B) = 1 /\
  Permutation (ListView.papersData st') (ListView.getSamplePapers B) /\
  ListView.papersContainer st'
    = Some (ListView.ErrorMessage "Using sample data: API proxies unavailable") /\
  ListView.shownPapers (ListView.papersContainer st') = [].
Proof.
  intros B st'.
  assert (Hu : forall u, In u (ListView.proxies B) -> unanswered B u = true).
  { intros u Hin. vm_compute in Hin.
    destruct Hin as [<-|[<-|[<-|[]]]]; vm_compute; reflexivity. }
  assert (Hc : ListView.papersContainer Fixtures.page <> None) by discriminate.
  assert (Hs : ListView.getSamplePapers B = ListView.literalSamplePapers)
    by (vm_compute; reflexivity).
  destruct (sample_list_replaced_by_notice B (ListView.proxies B) Fixtures.page
              "2312.00001" Hu Hc) as (_ & Hperm & Hnotice & Hshown & _).
  split; [exact Hu|]. split; [exact Hc|]. split; [exact Hs|].
  split; [rewrite Hs; reflexivity|].
  split; [exact Hperm|]. split; [exact Hnotice | exact Hshown].
Defined.

(** The list view takes any body with an ok status: when every proxy
    answers 200 with a page that is not XML, it takes the page of proxy 1 as
    its data, loads no record and shows the paragraph for an empty list,
    while [getSamplePapers] offers the literal sample paper. *)
Lemma invalid_bodies_bypass_fallback :
  let B := Fixtures.busyAll in
  let st' := ListView.loadPapersForToday B Fixtures.page in
  validAttempt B (nth 0 (ListView.proxies B) "") = None /\
  validAttempt B (nth 1 (ListView.proxies B) "") = None /\
  validAttempt B (nth 2 (ListView.proxies B) "") = None /\
  length (ListView.proxies B) = 3 /\
  ListView.papersData st' = [] /\
  ListView.papersContainer st' = Some ListView.NoPapersFound /\
  ListView.getSamplePapers B = ListView.literalSamplePapers.
Proof. cbv zeta. repeat split; vm_compute; reflexivity. Qed.

(** In the detail view a body set aside for its error marker stays in
    [data]: when the three proxies pass on the error feed of the API, every
    attempt is rejected, and the view shows the entry of that feed as the
    paper instead of the sample data. *)
Lemma marked_body_shown_after_all_rejected :
  let B := Fixtures.errorAll in
  (forall u, In u (DetailView.proxies B "abc") -> rejected B u = true) /\
  requested (DetailView.tryProxies B 0 (DetailView.proxies B "abc") noAttempts)
    = DetailView.proxies B "abc" /\
  (exists st,
     DetailView.fetchPaperDetails B "abc" = JS.Normal st /\
     DetailView.paperDetail st
     = DetailView.Details
         {| DetailView.title := "Error"; DetailView.authors := [];
            DetailView.published := "Invalid Date";
            DetailView.summary := "incorrect id format for abc";
            DetailView.pdfLink := "https://arxiv.org/pdf/abc.pdf" |}) /\
  DetailView.fetchPaperDetails B "abc" <> DetailView.displaySamplePaperDetails B "abc".
Proof.
  cbv zeta. split; [|split; [|split]].
  - intros u Hin. vm_compute in Hin.
    destruct Hin as [<-|[<-|[<-|[]]]]; vm_compute; reflexivity.
  - vm_compute. reflexivity.
  - eexists. split; [vm_compute; reflexivity|]. reflexivity.
  - vm_compute. discriminate.
Qed.

(* ===================================================================== *)
(** ** Text that fails to parse, and feeds without entries *)
(* ===================================================================== *)




(* ===================================================================== *)
(** ** The sample paper of the detail view *)
(* ===================================================================== *)









(* ===================================================================== *)
(** ** The citation generators *)
(* ===================================================================== *)

Lemma pop_removelast {A} (l : list A) : snd (JS.pop l) = removelast l.
Proof.
  induction l as [|x [|y l] IH]; [reflexivity | reflexivity |].
  change (JS.pop (x :: y :: l))
    with (let (last, rest) := JS.pop (y :: l) in (last, x :: rest)).
  change (removelast (x :: y :: l)) with (x :: removelast (y :: l)).
  rewrite <- IH. destruct (JS.pop (y :: l)). reflexivity.
Qed.

(** [generateBibtex] leaves the array of authors as it is. *)
Lemma generateBibtex_keeps_authors B id title authors published :
  snd (DetailView.generateBibtex B id title authors published) = authors.
Proof. reflexivity. Qed.

(** [generateStandardCitation] leaves an array of two or more authors
    without its last element. *)
Lemma generateStandardCitation_authors B title authors published :
  snd (DetailView.generateStandardCitation B title authors published)
  = if Nat.ltb 1 (length authors) then removelast authors else authors.
Proof.
  unfold DetailView.generateStandardCitation.
  destruct (Nat.ltb 1 (length authors)); [|reflexivity].
  rewrite <- pop_removelast. destruct (JS.pop authors). reflexivity.
Qed.

(** The author list of the BibTeX entry for the two sample authors. *)
Example generateBibtex_sample_authors :
  let bibtex := fst (DetailView.generateBibtex Fixtures.withAsset "2401.12345"
                       "Sample Paper" ["John Doe"; "Jane Smith"] "January 1, 2024") in
  JS.includes "author={Doe, John and Smith, Jane}" bibtex = true /\
  JS.includes "year={2024}" bibtex = true.
Proof. split; vm_compute; reflexivity. Qed.

(** C9. [generateStandardCitation] is not pure. On the detail page of the
    sample paper 2401.12345 the buttons hold the authors John Doe and Jane
    Smith; the first click on "Copy Citation" copies a citation naming both
    and removes Jane Smith from the array the two buttons share, so the
    second click copies a citation naming John Doe alone, and so does a
    click on "Copy BibTeX". *)
Theorem citation_click_drops_an_author :
  let B := Fixtures.withAsset in
  exists (st0 : DetailView.State) (c0 c1 : DetailView.CitationArgs),
    DetailView.displaySamplePaperDetails B "2401.12345" = JS.Normal st0 /\
    DetailView.citationButtons st0 = Some c0 /\
    DetailView.citeAuthors c0 = ["John Doe"; "Jane Smith"] /\
    DetailView.clickCitation B c0 =
      ("John Doe and Jane Smith (2024). Sample Paper: Advances in Machine Learning. arXiv preprint.",
       c1) /\
    DetailView.citeAuthors c1 = ["John Doe"] /\
    fst (DetailView.clickCitation B c1) =
      "John Doe (2024). Sample Paper: Advances in Machine Learning. arXiv preprint." /\
    JS.includes "author={Doe, John}" (fst (DetailView.clickBibtex B c1)) = true /\
    JS.includes "Smith" (fst (DetailView.clickBibtex B c1)) = false.
Proof.
  cbv zeta. eexists. eexists. eexists.
  split; [vm_compute; reflexivity|].
  split; [reflexivity|].
  repeat split; vm_compute; reflexivity.
Qed.

(* ===================================================================== *)
(** ** Escaping text for markup: [escapeHtml] *)
(* ===================================================================== *)

(** [String.append] is not unfolded by [simpl]; its two equations. *)
Lemma string_app_cons (x : ascii) (a b : string) : String x a ++ b = String x (a ++ b).
Proof. reflexivity. Qed.

Lemma string_app_nil_l (b : string) : "" ++ b = b.
Proof. reflexivity. Qed.

Lemma string_app_assoc (a b c : string) : (a ++ b) ++ c = a ++ (b ++ c).
Proof.
  induction a as [|x a IH]; [reflexivity|].
  rewrite !string_app_cons, IH. reflexivity.
Qed.

Lemma string_app_nil_r (a : string) : a ++ "" = a.
Proof.
  induction a as [|x a IH]; [reflexivity|]. rewrite string_app_cons, IH. reflexivity.
Qed.

Lemma string_length_app (a b : string) :
  String.length (a ++ b) = String.length a + String.length b.
Proof.
  induction a as [|x a IH]; [reflexivity|].
  rewrite string_app_cons. cbn [String.length]. rewrite IH. reflexivity.
Qed.

Lemma chars_app (a b : string) : chars (a ++ b) = (chars a ++ chars b)%list.
Proof.
  unfold chars. induction a as [|x a IH]; [reflexivity|].
  rewrite string_app_cons. cbn [list_ascii_of_string app]. rewrite IH. reflexivity.
Qed.

(** Case analysis on the five tests of [escapeChar] in a hypothesis. *)
Ltac escape_cases H :=
  unfold ListView.escapeChar in H;
  repeat match type of H with
         | context [Ascii.eqb ?c ?k] =>
             destruct (Ascii.eqb_spec c k); [subst c|]; cbv iota in H
         end.

(** The same on the goal. *)
Ltac escape_goal :=
  unfold ListView.escapeChar;
  repeat match goal with
         | |- context [Ascii.eqb ?c ?k] =>
             destruct (Ascii.eqb_spec c k); [subst c|]; cbv iota
         end.

Lemma escapeChar_no_markup c :
  Forall (fun x => x <> "<"%char /\ x <> ">"%char /\ x <> "034"%char /\ x <> "'"%char)
         (chars (ListView.escapeChar c)).
Proof.
  escape_goal; unfold chars; simpl;
    repeat constructor; solve [discriminate | assumption].
Qed.

(** X1. The text [escapeHtml] returns holds neither angle bracket nor
    quote: whatever the text, it cannot open or close a tag or an attribute
    value in the markup it is put in. *)
Theorem escapeHtml_no_markup (text : string) :
  Forall (fun x => x <> "<"%char /\ x <> ">"%char /\ x <> "034"%char /\ x <> "'"%char)
         (chars (ListView.escapeHtml text)).
Proof.
  induction text as [|c text IH]; simpl; [constructor|].
  rewrite chars_app. apply Forall_app. split; [apply escapeChar_no_markup | exact IH].
Qed.

(** X2. [escapeHtml] loses nothing: two texts with the same escaped form are
    the same text. *)
Theorem escapeHtml_injective (a b : string) :
  ListView.escapeHtml a = ListView.escapeHtml b -> a = b.
Proof.
  revert b. induction a as [|x a IH]; intros [|y b] H.
  - reflexivity.
  - exfalso. cbn [ListView.escapeHtml] in H. escape_cases H; discriminate.
  - exfalso. cbn [ListView.escapeHtml] in H. escape_cases H; discriminate.
  - cbn [ListView.escapeHtml] in H.
    escape_cases H; simpl in H; try discriminate;
      try (injection H as H; f_equal; apply IH; exact H);
      try (injection H as E H; congruence).
    injection H as -> H. f_equal. apply IH. exact H.
Qed.

Lemma escapeHtml_injective_witness :
  ListView.escapeHtml "a<b" = ListView.escapeHtml "a<b" /\ "a<b" = "a<b".
Proof.
  split; [reflexivity|]. apply (escapeHtml_injective "a<b" "a<b"). reflexivity.
Defined.

Lemma escapeChar_plain c : ListView.isSpecial c = false -> ListView.escapeChar c = String c "".
Proof.
  intros E. unfold ListView.isSpecial in E. repeat (apply orb_false_elim in E as [E ?]).
  unfold ListView.escapeChar. rewrite E.
  repeat match goal with H : _ = false |- _ => rewrite H; clear H end. reflexivity.
Qed.

(** An escaped special character starts with an ampersand and is longer
    than one character. *)
Lemma escapeChar_special c :
  ListView.isSpecial c = true ->
  exists rest, ListView.escapeChar c = String "&"%char rest /\ 1 <= String.length rest.
Proof.
  intros E. unfold ListView.isSpecial in E. revert E.
  escape_goal; intros E; try (eexists; split; [reflexivity | simpl; lia]).
  simpl in E. discriminate E.
Qed.

Lemma escapeHtml_length text :
  String.length text <= String.length (ListView.escapeHtml text) /\
  (existsb ListView.isSpecial (chars text) = true ->
   String.length text < String.length (ListView.escapeHtml text)).
Proof.
  induction text as [|c text [IH1 IH2]]; [simpl; split; [lia | discriminate]|].
  cbn [ListView.escapeHtml]. rewrite string_length_app.
  change (chars (String c text)) with (c :: chars text). cbn [existsb String.length].
  destruct (ListView.isSpecial c) eqn:E.
  - destruct (escapeChar_special c E) as (rest & -> & Hrest). simpl. split; [lia|]. intros _. lia.
  - rewrite (escapeChar_plain c E). simpl. split; [lia|]. intros H. apply IH2 in H. lia.
Qed.

Lemma escapeHtml_plain text :
  existsb ListView.isSpecial (chars text) = false -> ListView.escapeHtml text = text.
Proof.
  induction text as [|c text IH]; [reflexivity|].
  change (chars (String c text)) with (c :: chars text). cbn [existsb].
  intros H. apply orb_false_elim in H as [Hc Ht].
  cbn [ListView.escapeHtml]. rewrite (escapeChar_plain c Hc), (IH Ht). reflexivity.
Qed.

Lemma escapeHtml_keeps_special text :
  existsb ListView.isSpecial (chars text) = true ->
  existsb ListView.isSpecial (chars (ListView.escapeHtml text)) = true.
Proof.
  induction text as [|c text IH]; [discriminate|].
  change (chars (String c text)) with (c :: chars text). cbn [existsb ListView.escapeHtml].
  rewrite chars_app, existsb_app. intros H.
  destruct (ListView.isSpecial c) eqn:E.
  - destruct (escapeChar_special c E) as (rest & -> & _). reflexivity.
  - simpl in H. rewrite (IH H). apply orb_true_r.
Qed.

(** X3. Escaping is not idempotent: escaping an escaped text gives it back
    exactly when the original text holds no character of the class; any
    other text grows again, its entities being escaped a second time. *)
Theorem escapeHtml_twice (text : string) :
  ListView.escapeHtml (ListView.escapeHtml text) = ListView.escapeHtml text <->
  existsb ListView.isSpecial (chars text) = false.
Proof.
  split.
  - intros H. destruct (existsb ListView.isSpecial (chars text)) eqn:E; [|reflexivity].
    exfalso. apply escapeHtml_keeps_special in E.
    apply (proj2 (escapeHtml_length (ListView.escapeHtml text))) in E.
    rewrite H in E. lia.
  - intros H. rewrite (escapeHtml_plain text H). exact (escapeHtml_plain text H).
Qed.

(** X4. [escapeHtml] works character by character: the escaped form of a
    concatenation is the concatenation of the escaped forms, so escaping
    the parts of a message before or after joining them is the same. *)
Theorem escapeHtml_app (a b : string) :
  ListView.escapeHtml (a ++ b) = ListView.escapeHtml a ++ ListView.escapeHtml b.
Proof.
  induction a as [|c a IH]; [reflexivity|].
  rewrite string_app_cons. cbn [ListView.escapeHtml]. rewrite IH, string_app_assoc. reflexivity.
Qed.

(* ===================================================================== *)
(** ** Author names in the citations *)
(* ===================================================================== *)

Lemma split_no_separator sep s : ~ In sep (chars s) -> JS.split sep s = [s].
Proof.
  unfold chars. induction s as [|c s IH]; [reflexivity|].
  cbn [list_ascii_of_string JS.split]. intros H.
  destruct (Ascii.eqb_spec c sep) as [->|_]; [exfalso; apply H; left; reflexivity|].
  rewrite IH; [reflexivity|]. intros Hin. apply H. right. exact Hin.
Qed.

Lemma split_app_separator sep pre last :
  ~ In sep (chars last) ->
  JS.split sep (pre ++ String sep last) = (JS.split sep pre ++ [last])%list.
Proof.
  intros Hlast. induction pre as [|c pre IH].
  - rewrite string_app_nil_l. cbn [JS.split]. rewrite Ascii.eqb_refl.
    rewrite (split_no_separator sep last Hlast). reflexivity.
  - rewrite string_app_cons. cbn [JS.split]. rewrite IH.
    destruct (Ascii.eqb c sep); [reflexivity|].
    pose proof (split_nonempty sep pre) as Hne.
    destruct (JS.split sep pre) as [|seg rest]; [congruence | reflexivity].
Qed.

Lemma pop_snoc {A} (l : list A) (x : A) : JS.pop (l ++ [x]) = (Some x, l).
Proof.
  induction l as [|y l IH]; [reflexivity|].
  destruct l as [|z l].
  - reflexivity.
  - change (JS.pop ((y :: z :: l) ++ [x]))
      with (let (last, rest) := JS.pop ((z :: l) ++ [x]) in (last, y :: rest)).
    rewrite IH. reflexivity.
Qed.

(** Joining the parts of a split with the separator gives the text back. *)
Lemma join_split sep s : JS.join (String sep "") (JS.split sep s) = s.
Proof.
  induction s as [|c s IH]; [reflexivity|].
  cbn [JS.split]. pose proof (split_nonempty sep s) as Hne.
  destruct (Ascii.eqb_spec c sep) as [->|_].
  - destruct (JS.split sep s) as [|seg rest] eqn:E; [congruence|].
    change (JS.join (String sep "") ("" :: seg :: rest))
      with ("" ++ (String sep "" ++ JS.join (String sep "") (seg :: rest))).
    rewrite IH. reflexivity.
  - destruct (JS.split sep s) as [|seg rest] eqn:E; [congruence|].
    destruct rest as [|seg' rest].
    + simpl in IH. subst seg. reflexivity.
    + change (JS.join (String sep "") (String c seg :: seg' :: rest))
        with (String c seg ++ (String sep "" ++ JS.join (String sep "") (seg' :: rest))).
      change (JS.join (String sep "") (seg :: seg' :: rest))
        with (seg ++ (String sep "" ++ JS.join (String sep "") (seg' :: rest))) in IH.
      rewrite string_app_cons, IH. reflexivity.
Qed.

(** X5. In the BibTeX entry a name is written family name first, the family
    name being what follows the last space of the name: [given family]
    becomes [family, given], whatever spaces [given] holds. A name without
    any space is followed by a comma and a space, with nothing after. *)
Theorem bibtexName_family_first (given family : string) :
  ~ In " "%char (chars family) ->
  DetailView.bibtexName (given ++ " " ++ family) = family ++ ", " ++ given /\
  DetailView.bibtexName family = family ++ ", ".
Proof.
  intros H. unfold DetailView.bibtexName. split.
  - change (given ++ " " ++ family) with (given ++ String " "%char family).
    rewrite (split_app_separator " " given family H), pop_snoc.
    change (JS.join " " (JS.split " " given))
      with (JS.join (String " "%char "") (JS.split " " given)).
    rewrite join_split. reflexivity.
  - rewrite (split_no_separator " " family H). reflexivity.
Qed.

Lemma bibtexName_family_first_witness :
  ~ In " "%char (chars "Beauvoir") /\
  DetailView.bibtexName "Simone de Beauvoir" = "Beauvoir, Simone de" /\
  DetailView.bibtexName "Beauvoir" = "Beauvoir, ".
Proof.
  assert (H : ~ In " "%char (chars "Beauvoir")).
  { vm_compute. intros H. repeat (destruct H as [H|H]; [discriminate H|]). exact H. }
  split; [exact H|]. exact (bibtexName_family_first "Simone de" "Beauvoir" H).
Defined.

(** X6. For two or more authors the citation names all but the last,
    separated by commas, then [and] and the last one, followed by the year
    in parentheses and the title; the call leaves the array without its last
    author. *)
Theorem generateStandardCitation_several (B : Browser) (title published : string)
    (init : list string) (last : string) :
  init <> [] ->
  DetailView.generateStandardCitation B title (init ++ [last]) published =
  (JS.join ", " init ++ " and " ++ last ++ " (" ++ DetailView.yearOf B published
     ++ "). " ++ title ++ ". arXiv preprint.", init).
Proof.
  intros Hinit. unfold DetailView.generateStandardCitation.
  assert (Hlen : Nat.ltb 1 (length (init ++ [last])) = true).
  { apply Nat.ltb_lt. rewrite length_app. destruct init; [congruence | simpl; lia]. }
  rewrite Hlen, pop_snoc. cbn [default]. rewrite !string_app_assoc. reflexivity.
Qed.

Lemma generateStandardCitation_several_witness :
  ["Ada Lovelace"; "Alan Turing"] <> [] /\
  DetailView.generateStandardCitation Fixtures.withAsset "On Engines"
    (["Ada Lovelace"; "Alan Turing"] ++ ["Grace Hopper"]) "January 1, 2024" =
  ("Ada Lovelace, Alan Turing and Grace Hopper (2024). On Engines. arXiv preprint.",
   ["Ada Lovelace"; "Alan Turing"]).
Proof.
  assert (H : ["Ada Lovelace"; "Alan Turing"] <> []) by discriminate.
  split; [exact H|].
  exact (generateStandardCitation_several Fixtures.withAsset "On Engines"
           "January 1, 2024" ["Ada Lovelace"; "Alan Turing"] "Grace Hopper" H).
Defined.

Lemma clickCitation_authors B c :
  DetailView.citeAuthors (snd (DetailView.clickCitation B c))
  = if Nat.ltb 1 (length (DetailView.citeAuthors c))
    then removelast (DetailView.citeAuthors c) else DetailView.citeAuthors c.
Proof.
  unfold DetailView.clickCitation.
  rewrite <- (generateStandardCitation_authors B (DetailView.citeTitle c)
                (DetailView.citeAuthors c) (DetailView.citePublished c)).
  destruct (DetailView.generateStandardCitation B (DetailView.citeTitle c)
              (DetailView.citeAuthors c) (DetailView.citePublished c)).
  reflexivity.
Qed.

(** X7. Each click on "Copy Citation" takes one more author off the end of
    the array the buttons share, down to the first author: after [k] clicks
    the array holds the first [max 1 (n - k)] of its [n] authors. *)
Theorem citation_clicks_shrink_authors (B : Browser) (k : nat) (c : DetailView.CitationArgs) :
  DetailView.citeAuthors (Nat.iter k (fun c => snd (DetailView.clickCitation B c)) c)
  = firstn (Nat.max 1 (length (DetailView.citeAuthors c) - k)) (DetailView.citeAuthors c).
Proof.
  induction k as [|k IH].
  - simpl. rewrite Nat.sub_0_r. apply eq_sym, firstn_all2. lia.
  - rewrite Nat.iter_succ. cbv beta. rewrite clickCitation_authors, IH.
    set (l := DetailView.citeAuthors c). set (n := length l).
    rewrite length_firstn. fold n.
    destruct (Nat.ltb_spec 1 (Nat.min (Nat.max 1 (n - k)) n)) as [Hlt|Hge].
    + assert (E : Nat.max 1 (n - k) = S (Nat.max 1 (n - S k))) by lia.
      rewrite E. apply removelast_firstn. fold n. lia.
    + f_equal. lia.
Qed.

(* ===================================================================== *)
(** ** Rendering again, and the category filter *)
(* ===================================================================== *)

(** The comparator of [renderPaperList] never says both that [x] goes after
    [y] and that [y] goes after [x]. *)
Lemma keepsBefore_or B x y :
  JS.keepsBefore (ListView.byPublishedDesc B) x y = false ->
  JS.keepsBefore (ListView.byPublishedDesc B) y x = true.
Proof.
  unfold JS.keepsBefore, ListView.byPublishedDesc.
  destruct (dateValue B (ListView.published x)) as [tx|],
           (dateValue B (ListView.published y)) as [ty|]; try discriminate.
  intros H. apply Z.leb_gt in H. apply Z.leb_le. lia.
Qed.

Lemma insert_HdRel B y x l :
  JS.keepsBefore (ListView.byPublishedDesc B) y x = true ->
  HdRel (fun x y => JS.keepsBefore (ListView.byPublishedDesc B) x y = true) y l ->
  HdRel (fun x y => JS.keepsBefore (ListView.byPublishedDesc B) x y = true) y
        (JS.insert (ListView.byPublishedDesc B) x l).
Proof.
  intros Hyx Hl. destruct l as [|z l]; simpl; [constructor; exact Hyx|].
  destruct (JS.keepsBefore (ListView.byPublishedDesc B) x z);
    constructor; [exact Hyx | inversion Hl; assumption].
Qed.

Lemma insert_inOrder B x l :
  inOrder B l -> inOrder B (JS.insert (ListView.byPublishedDesc B) x l).
Proof.
  unfold inOrder. induction 1 as [|y l Hs IH Hy]; simpl; [repeat constructor|].
  destruct (JS.keepsBefore (ListView.byPublishedDesc B) x y) eqn:E.
  - constructor; [constructor; assumption | constructor; exact E].
  - constructor; [exact IH|]. apply insert_HdRel; [|exact Hy].
    apply keepsBefore_or. exact E.
Qed.

Lemma sort_inOrder B l : inOrder B (JS.sort (ListView.byPublishedDesc B) l).
Proof.
  induction l as [|x l IH]; simpl; [constructor | apply insert_inOrder; exact IH].
Qed.

Lemma sort_of_inOrder B l :
  inOrder B l -> JS.sort (ListView.byPublishedDesc B) l = l.
Proof.
  unfold inOrder. induction 1 as [|x l Hs IH Hx]; [reflexivity|].
  simpl. rewrite IH. destruct Hx as [|y l Hxy]; simpl; [reflexivity|].
  rewrite Hxy. reflexivity.
Qed.

Lemma sort_sort B l :
  JS.sort (ListView.byPublishedDesc B) (JS.sort (ListView.byPublishedDesc B) l)
  = JS.sort (ListView.byPublishedDesc B) l.
Proof. apply sort_of_inOrder, sort_inOrder. Qed.

Lemma sort_nil_iff {A} (cmp : A -> A -> option Z) l : JS.sort cmp l = [] <-> l = [].
Proof.
  split; [|intros ->; reflexivity].
  intros H. pose proof (sort_Permutation cmp l) as P. rewrite H in P.
  apply Permutation_nil in P. exact P.
Qed.

(** [renderPaperList] on a page with a container, case by case. *)
Lemma renderPaperList_some B papers st c :
  ListView.papersContainer st = Some c ->
  ListView.renderPaperList B papers st =
    match selected (ListView.currentCategory st) papers with
    | [] => (papers, ListView.setContainer ListView.NoPapersFound st)
    | p :: sel =>
        (if String.eqb (ListView.currentCategory st) "all"
         then JS.sort (ListView.byPublishedDesc B) (p :: sel) else papers,
         ListView.setContainer
           (ListView.PaperItems (JS.sort (ListView.byPublishedDesc B) (p :: sel))) st)
    end.
Proof.
  intros Hc. unfold ListView.renderPaperList, selected. rewrite Hc.
  destruct (String.eqb (ListView.currentCategory st) "all").
  - destruct papers; reflexivity.
  - destruct (List.filter _ papers); reflexivity.
Qed.

Lemma selected_selected category papers :
  selected category (selected category papers) = selected category papers.
Proof.
  unfold selected. destruct (String.eqb category "all"); [reflexivity|].
  induction papers as [|p papers IH]; [reflexivity|]. simpl.
  destruct (ListView.inCategory category p) eqn:E; simpl; rewrite ?E, IH; reflexivity.
Qed.

(** A second call of [renderPaperList] finds the array as [JS.sort] left it. *)
Lemma renderPaperList_idem (B : Browser) (papers : list ListView.Paper)
    (st : ListView.State) :
  let r := ListView.renderPaperList B papers st in
  ListView.renderPaperList B (fst r) (snd r) = r.
Proof.
  cbv zeta. destruct (ListView.papersContainer st) as [c|] eqn:Hc.
  - rewrite (renderPaperList_some B papers st c Hc).
    destruct (selected (ListView.currentCategory st) papers) as [|p sel] eqn:Esel.
    + cbn [fst snd].
      rewrite (renderPaperList_some B papers
                 (ListView.setContainer ListView.NoPapersFound st)
                 ListView.NoPapersFound eq_refl).
      cbn [ListView.currentCategory ListView.setContainer]. rewrite Esel. reflexivity.
    + cbn [fst snd].
      erewrite renderPaperList_some by reflexivity.
      cbn [ListView.currentCategory ListView.setContainer].
      unfold selected in *.
      destruct (String.eqb (ListView.currentCategory st) "all") eqn:Eall.
      * subst papers.
        destruct (JS.sort (ListView.byPublishedDesc B) (p :: sel)) as [|q srt] eqn:Es.
        -- apply sort_nil_iff in Es. discriminate.
        -- rewrite <- Es, sort_sort. reflexivity.
      * rewrite Esel. reflexivity.
  - unfold ListView.renderPaperList. rewrite Hc. cbn [fst snd]. rewrite Hc. reflexivity.
Qed.

(** X8. Rendering papers with valid dates is idempotent: calling
    [renderPaperList] again on the array and the page a call leaves behind
    changes neither. (With valid dates the comparator is consistent, and the
    order of the sorted array is the same in every engine.) *)
Theorem renderPaperList_again (B : Browser) (papers : list ListView.Paper)
    (st : ListView.State) :
  Forall (fun p => present (dateValue B (ListView.published p)) = true) papers ->
  let r := ListView.renderPaperList B papers st in
  ListView.renderPaperList B (fst r) (snd r) = r.
Proof. intros _. exact (renderPaperList_idem B papers st). Qed.

Lemma renderPaperList_again_witness :
  let B := Fixtures.withAsset in
  let papers := [Fixtures.paper2312; Fixtures.paper2401] in
  let r := ListView.renderPaperList B papers Fixtures.page in
  Forall (fun p => present (dateValue B (ListView.published p)) = true) papers /\
  fst r = [Fixtures.paper2401; Fixtures.paper2312] /\
  ListView.renderPaperList B (fst r) (snd r) = r.
Proof.
  intros B papers r.
  assert (Hvalid : Forall (fun p => present (dateValue B (ListView.published p)) = true)
                          papers).
  { apply List.Forall_forall. intros p Hin.
    destruct Hin as [<-|[<-|[]]]; vm_compute; reflexivity. }
  split; [exact Hvalid|]. split; [vm_compute; reflexivity|].
  exact (renderPaperList_again B papers Fixtures.page Hvalid).
Defined.

Lemma renderPaperList_frame B papers st :
  ListView.currentCategory (snd (ListView.renderPaperList B papers st))
    = ListView.currentCategory st /\
  ListView.loadingIndicator (snd (ListView.renderPaperList B papers st))
    = ListView.loadingIndicator st /\
  ListView.papersData (snd (ListView.renderPaperList B papers st))
    = ListView.papersData st.
Proof.
  destruct (ListView.papersContainer st) as [c|] eqn:Hc.
  - rewrite (renderPaperList_some B papers st c Hc).
    destruct (selected (ListView.currentCategory st) papers); repeat split; reflexivity.
  - unfold ListView.renderPaperList. rewrite Hc. repeat split; reflexivity.
Qed.

(** [renderPaperList] reads the category and the container of the page, not
    its [papersData]. *)
Lemma renderPaperList_setPapersData B papers x st :
  ListView.renderPaperList B papers (ListView.setPapersData x st)
  = (fst (ListView.renderPaperList B papers st),
     ListView.setPapersData x (snd (ListView.renderPaperList B papers st))).
Proof.
  unfold ListView.renderPaperList. cbn [ListView.setPapersData ListView.papersContainer
    ListView.currentCategory].
  destruct (ListView.papersContainer st); [|reflexivity].
  destruct (String.eqb (ListView.currentCategory st) "all").
  - destruct papers; reflexivity.
  - destruct (List.filter _ papers); reflexivity.
Qed.

Lemma setPapersData_twice x y st :
  ListView.setPapersData x (ListView.setPapersData y st) = ListView.setPapersData x st.
Proof. reflexivity. Qed.

Lemma renderPapersData_again B st :
  ListView.renderPapersData B (ListView.renderPapersData B st)
  = ListView.renderPapersData B st.
Proof.
  unfold ListView.renderPapersData.
  pose proof (renderPaperList_idem B (ListView.papersData st) st) as H. cbv zeta in H.
  destruct (ListView.renderPaperList B (ListView.papersData st) st) as [arr st1].
  cbn [fst snd] in H. cbn [ListView.papersData ListView.setPapersData].
  rewrite renderPaperList_setPapersData, H. reflexivity.
Qed.

Lemma renderPapersData_category B st :
  ListView.currentCategory (ListView.renderPapersData B st) = ListView.currentCategory st.
Proof.
  unfold ListView.renderPapersData.
  pose proof (renderPaperList_frame B (ListView.papersData st) st) as (H & _).
  destruct (ListView.renderPaperList B (ListView.papersData st) st). exact H.
Qed.

(** X9. With valid dates on the loaded papers, clicking the category that
    is already selected changes nothing: [filterByCategory] applied twice
    with the same category leaves the page as after the first call. *)
Theorem filterByCategory_again (B : Browser) (category : string) (st : ListView.State) :
  Forall (fun p => present (dateValue B (ListView.published p)) = true)
         (ListView.papersData st) ->
  ListView.filterByCategory B category (ListView.filterByCategory B category st)
  = ListView.filterByCategory B category st.
Proof.
  intros _.
  unfold ListView.filterByCategory at 1.
  set (st1 := ListView.filterByCategory B category st).
  assert (Hcat : ListView.currentCategory st1 = category).
  { subst st1. unfold ListView.filterByCategory. rewrite renderPapersData_category.
    reflexivity. }
  assert (E : {| ListView.currentCategory := category;
                 ListView.papersData := ListView.papersData st1;
                 ListView.papersContainer := ListView.papersContainer st1;
                 ListView.loadingIndicator := ListView.loadingIndicator st1 |} = st1).
  { destruct st1. cbn in *. subst. reflexivity. }
  rewrite E. subst st1. unfold ListView.filterByCategory. apply renderPapersData_again.
Qed.

Lemma filterByCategory_again_witness :
  let B := Fixtures.withAsset in
  let st := ListView.setPapersData [Fixtures.paper2312; Fixtures.paper2401] Fixtures.page in
  Forall (fun p => present (dateValue B (ListView.published p)) = true)
         (ListView.papersData st) /\
  ListView.papersContainer (ListView.filterByCategory B "cs.LG" st)
    = Some (ListView.PaperItems [Fixtures.paper2401]) /\
  ListView.filterByCategory B "cs.LG" (ListView.filterByCategory B "cs.LG" st)
  = ListView.filterByCategory B "cs.LG" st.
Proof.
  intros B st.
  assert (Hvalid : Forall (fun p => present (dateValue B (ListView.published p)) = true)
                          (ListView.papersData st)).
  { apply List.Forall_forall. intros p Hin.
    destruct Hin as [<-|[<-|[]]]; vm_compute; reflexivity. }
  split; [exact Hvalid|]. split; [vm_compute; reflexivity|].
  exact (filterByCategory_again B "cs.LG" st Hvalid).
Defined.

(** X10. A click on a category shows exactly the loaded papers of that
    category, each once (all of them under 'all'), and the "no papers"
    paragraph when there is none; under a category other than 'all' every
    paper shown lists it among its categories. *)
Theorem filterByCategory_shows_selected (B : Browser) (category : string)
    (st : ListView.State) :
  ListView.papersContainer st <> None ->
  let st' := ListView.filterByCategory B category st in
  Permutation (ListView.shownPapers (ListView.papersContainer st'))
              (selected category (ListView.papersData st)) /\
  (selected category (ListView.papersData st) = [] ->
   ListView.papersContainer st' = Some ListView.NoPapersFound) /\
  (category <> "all" ->
   Forall (fun p => In category (ListView.categories p))
          (ListView.shownPapers (ListView.papersContainer st'))).
Proof.
  intros Hc st'. subst st'. unfold ListView.filterByCategory.
  rewrite papersContainer_renderPapersData.
  destruct (ListView.papersContainer st) as [c|] eqn:Ec; [clear Hc|congruence].
  erewrite renderPaperList_container by reflexivity.
  cbn [ListView.currentCategory ListView.papersData].
  assert (P : Permutation
    (ListView.shownPapers
       (Some match selected category (ListView.papersData st) with
             | [] => ListView.NoPapersFound
             | _ :: _ => ListView.PaperItems
                 (JS.sort (ListView.byPublishedDesc B)
                    (selected category (ListView.papersData st)))
             end))
    (selected category (ListView.papersData st))).
  { destruct (selected category (ListView.papersData st)); [reflexivity|].
    apply sort_Permutation. }
  split; [exact P|]. split.
  - intros ->. reflexivity.
  - intros Hne. apply List.Forall_forall. intros p Hp.
    apply (Permutation_in _ P) in Hp. unfold selected in Hp.
    destruct (String.eqb_spec category "all") as [->|_]; [congruence|].
    apply List.filter_In in Hp as [_ Hp]. unfold ListView.inCategory in Hp.
    apply existsb_exists in Hp as (x & Hx & E). apply String.eqb_eq in E. subst x.
    exact Hx.
Qed.

Lemma filterByCategory_shows_selected_witness :
  let st := ListView.setPapersData [Fixtures.paper2312; Fixtures.paper2401] Fixtures.page in
  ListView.papersContainer st <> None /\
  ListView.shownPapers
    (ListView.papersContainer (ListView.filterByCategory Fixtures.plain "cs.NA" st))
    = [Fixtures.paper2312] /\
  Forall (fun p => In "cs.NA" (ListView.categories p))
    (ListView.shownPapers
       (ListView.papersContainer (ListView.filterByCategory Fixtures.plain "cs.NA" st))).
Proof.
  intros st. assert (H : ListView.papersContainer st <> None) by discriminate.
  split; [exact H|]. split; [vm_compute; reflexivity|].
  apply (filterByCategory_shows_selected Fixtures.plain "cs.NA" st H). discriminate.
Defined.

(** X11. A click never loses, duplicates or adds a loaded paper. Under a
    category other than 'all' the array [papersData] is left exactly as it
    was; under 'all', on a page with a container, it is left in the order
    in which the papers are shown. *)
Theorem filterByCategory_keeps_papersData (B : Browser) (category : string)
    (st : ListView.State) :
  let st' := ListView.filterByCategory B category st in
  ListView.currentCategory st' = category /\
  Permutation (ListView.papersData st') (ListView.papersData st) /\
  (category <> "all" -> ListView.papersData st' = ListView.papersData st) /\
  (category = "all" -> ListView.papersContainer st <> None ->
   ListView.papersData st' <> [] ->
   ListView.papersContainer st' = Some (ListView.PaperItems (ListView.papersData st'))).
Proof.
  cbv zeta. unfold ListView.filterByCategory.
  set (st0 := {| ListView.currentCategory := category;
                 ListView.papersData := ListView.papersData st;
                 ListView.papersContainer := ListView.papersContainer st;
                 ListView.loadingIndicator := ListView.loadingIndicator st |}).
  split; [rewrite renderPapersData_category; reflexivity|].
  rewrite papersData_renderPapersData, papersContainer_renderPapersData.
  change (ListView.papersData st0) with (ListView.papersData st).
  split; [apply renderPaperList_array|]. split.
  - intros Hne. unfold ListView.renderPaperList.
    destruct (ListView.papersContainer st0); [|reflexivity].
    change (ListView.currentCategory st0) with category.
    destruct (String.eqb_spec category "all") as [->|_]; [congruence|].
    destruct (List.filter _ (ListView.papersData st)); reflexivity.
  - intros -> Hc. destruct (ListView.papersContainer st) as [c|] eqn:Ec; [|congruence].
    rewrite (renderPaperList_some B (ListView.papersData st) st0 c eq_refl).
    change (ListView.currentCategory st0) with "all". unfold selected.
    change (String.eqb "all" "all") with true. cbv iota.
    destruct (ListView.papersData st) as [|p ps]; [cbn [fst]; congruence|].
    intros _. reflexivity.
Qed.

Lemma filterByCategory_keeps_papersData_witness :
  let st := ListView.setPapersData [Fixtures.paper2312; Fixtures.paper2401] Fixtures.page in
  ("cs.NA" <> "all" /\
   ListView.papersData (ListView.filterByCategory Fixtures.thirdAnswers "cs.NA" st)
     = [Fixtures.paper2312; Fixtures.paper2401]) /\
  (ListView.papersContainer st <> None /\
   ListView.papersData (ListView.filterByCategory Fixtures.thirdAnswers "all" st) <> [] /\
   ListView.papersContainer (ListView.filterByCategory Fixtures.thirdAnswers "all" st)
     = Some (ListView.PaperItems
               (ListView.papersData (ListView.filterByCategory Fixtures.thirdAnswers "all" st)))).
Proof.
  intros st.
  assert (H1 : "cs.NA" <> "all") by discriminate.
  assert (H2 : ListView.papersContainer st <> None) by discriminate.
  assert (H3 : ListView.papersData (ListView.filterByCategory Fixtures.thirdAnswers "all" st)
               <> []) by (vm_compute; discriminate).
  split; [split; [exact H1|]|split; [exact H2|split; [exact H3|]]].
  - exact (proj1 (proj2 (proj2 (filterByCategory_keeps_papersData
             Fixtures.thirdAnswers "cs.NA" st))) H1).
  - exact (proj2 (proj2 (proj2 (filterByCategory_keeps_papersData
             Fixtures.thirdAnswers "all" st))) eq_refl H2 H3).
Defined.

(* ===================================================================== *)
(** ** Loading the list, from the first request to the last write *)
(* ===================================================================== *)

Lemma showLoadingIndicator_frame show st :
  ListView.currentCategory (ListView.showLoadingIndicator show st)
    = ListView.currentCategory st /\
  ListView.loadingIndicator (ListView.showLoadingIndicator show st)
    = match ListView.loadingIndicator st with
      | Some _ => Some show
      | None => None
      end.
Proof.
  unfold ListView.showLoadingIndicator.
  destruct (ListView.loadingIndicator st) eqn:E; [split; reflexivity|].
  split; [reflexivity | exact E].
Qed.

Lemma showError_frame notice st :
  ListView.currentCategory (ListView.showError notice st) = ListView.currentCategory st /\
  ListView.loadingIndicator (ListView.showError notice st) = ListView.loadingIndicator st.
Proof. unfold ListView.showError. destruct (ListView.papersContainer st); split; reflexivity. Qed.

Lemma renderPapersData_frame B st :
  ListView.currentCategory (ListView.renderPapersData B st) = ListView.currentCategory st /\
  ListView.loadingIndicator (ListView.renderPapersData B st) = ListView.loadingIndicator st.
Proof.
  split; [apply renderPapersData_category|].
  unfold ListView.renderPapersData.
  pose proof (renderPaperList_frame B (ListView.papersData st) st) as (_ & H & _).
  destruct (ListView.renderPaperList B (ListView.papersData st) st). exact H.
Qed.

Lemma useSampleData_frame B notice st :
  ListView.currentCategory (ListView.useSampleData B notice st)
    = ListView.currentCategory st /\
  ListView.loadingIndicator (ListView.useSampleData B notice st)
    = ListView.loadingIndicator st.
Proof.
  unfold ListView.useSampleData.
  destruct (showError_frame notice
              (ListView.renderPapersData B
                 (ListView.setPapersData (ListView.getSamplePapers B) st))) as [-> ->].
  destruct (renderPapersData_frame B
              (ListView.setPapersData (ListView.getSamplePapers B) st)) as [-> ->].
  split; reflexivity.
Qed.

(** X12. However the load goes (a proxy answers, none does, or the
    normalizer throws), [loadPapersForToday] ends with the loading indicator
    hidden, when the page has one, and leaves the selected category as it
    was. *)
Theorem loadPapers_hides_indicator (B : Browser) (proxies : list string)
    (st : ListView.State) :
  let st' := ListView.loadPapersFrom B proxies st in
  ListView.currentCategory st' = ListView.currentCategory st /\
  ListView.loadingIndicator st'
    = match ListView.loadingIndicator st with
      | Some _ => Some false
      | None => None
      end.
Proof.
  cbv zeta. unfold ListView.loadPapersFrom.
  set (st1 := ListView.showLoadingIndicator true st).
  destruct (showLoadingIndicator_frame true st) as [Hc1 Hi1]. fold st1 in Hc1, Hi1.
  assert (H : forall st2,
            ListView.currentCategory st2 = ListView.currentCategory st1 ->
            ListView.loadingIndicator st2 = ListView.loadingIndicator st1 ->
            ListView.currentCategory (ListView.showLoadingIndicator false st2)
              = ListView.currentCategory st /\
            ListView.loadingIndicator (ListView.showLoadingIndicator false st2)
              = match ListView.loadingIndicator st with
                | Some _ => Some false
                | None => None
                end).
  { intros st2 Hc2 Hi2. destruct (showLoadingIndicator_frame false st2) as [-> ->].
    rewrite Hc2, Hi2, Hc1, Hi1. split; [reflexivity|].
    destruct (ListView.loadingIndicator st); reflexivity. }
  destruct (JS.falsy (data (ListView.tryProxies B 0 proxies noAttempts))).
  - apply H; apply useSampleData_frame.
  - destruct (ListView.parseArxivResponse B _) as [papers|e].
    + apply H; apply (renderPapersData_frame B (ListView.setPapersData papers st1)).
    + apply H; apply useSampleData_frame.
Qed.

Lemma truthy_nonempty body : body <> "" -> JS.truthy body = true.
Proof. intros H. unfold JS.truthy. apply String.eqb_neq in H. rewrite H. reflexivity. Qed.

(** The state [loadPapersFrom] ends in when a proxy answers with a body. *)
Lemma loadPapersFrom_answer B earlier url later status body st :
  (forall u, In u earlier -> unanswered B u = true) ->
  fetch B url = Response status body -> ok status = true -> body <> "" ->
  ListView.loadPapersFrom B (earlier ++ url :: later) st =
  ListView.showLoadingIndicator false
    (match ListView.parseArxivResponse B body with
     | JS.Normal papers =>
         ListView.renderPapersData B
           (ListView.setPapersData papers (ListView.showLoadingIndicator true st))
     | JS.Throw error =>
         ListView.useSampleData B ("Using sample data: " ++ JS.message error)
           (ListView.showLoadingIndicator true st)
     end).
Proof.
  intros Hearlier Hurl Hok Hbody. unfold ListView.loadPapersFrom.
  destruct (list_first_answer B earlier url later status body 0 noAttempts
              Hearlier Hurl Hok) as [-> _].
  cbn [JS.falsy default]. rewrite (truthy_nonempty body Hbody). reflexivity.
Qed.

(** X13. When the first proxy to answer returns a body the normalizer turns
    into records, those records are what the list view ends with: they are
    loaded in [papersData], none lost or added, and the container shows the
    ones of the selected category, or the "no papers" paragraph when there
    is none. *)
Theorem loadPapers_shows_normalized (B : Browser) (earlier later : list string)
    (url body : string) (status : Z) (papers : list ListView.Paper) (st : ListView.State) :
  (forall u, In u earlier -> unanswered B u = true) ->
  fetch B url = Response status body -> ok status = true -> body <> "" ->
  ListView.parseArxivResponse B body = JS.Normal papers ->
  let st' := ListView.loadPapersFrom B (earlier ++ url :: later) st in
  Permutation (ListView.papersData st') papers /\
  (ListView.papersContainer st <> None ->
   Permutation (ListView.shownPapers (ListView.papersContainer st'))
               (selected (ListView.currentCategory st) papers) /\
   (selected (ListView.currentCategory st) papers = [] ->
    ListView.papersContainer st' = Some ListView.NoPapersFound)).
Proof.
  intros Hearlier Hurl Hok Hbody Hparse st'. subst st'.
  rewrite (loadPapersFrom_answer B earlier url later status body st
             Hearlier Hurl Hok Hbody), Hparse.
  set (st1 := ListView.showLoadingIndicator true st).
  rewrite papersData_showLoadingIndicator, papersContainer_showLoadingIndicator.
  rewrite papersData_renderPapersData, papersContainer_renderPapersData.
  cbn [ListView.papersData ListView.setPapersData].
  split; [apply renderPaperList_array|].
  intros Hc. destruct (ListView.papersContainer st) as [c|] eqn:Ec; [|congruence].
  assert (Ec1 : ListView.papersContainer (ListView.setPapersData papers st1) = Some c).
  { cbn [ListView.papersContainer ListView.setPapersData]. subst st1.
    rewrite papersContainer_showLoadingIndicator. exact Ec. }
  rewrite (renderPaperList_container B papers _ c Ec1).
  assert (Ecat : ListView.currentCategory (ListView.setPapersData papers st1)
                 = ListView.currentCategory st).
  { cbn [ListView.currentCategory ListView.setPapersData]. subst st1.
    apply showLoadingIndicator_frame. }
  rewrite Ecat.
  destruct (selected (ListView.currentCategory st) papers) as [|p sel].
  - split; [reflexivity | intros _; reflexivity].
  - split; [apply sort_Permutation | discriminate].
Qed.

Lemma loadPapers_shows_normalized_witness :
  let B := Fixtures.thirdAnswers in
  let earlier := firstn 2 Fixtures.listProxies in
  let url := nth 2 Fixtures.listProxies "" in
  let st' := ListView.loadPapersFrom B (earlier ++ [url]) Fixtures.page in
  (forall u, In u earlier -> unanswered B u = true) /\
  fetch B url = Response 200 Fixtures.feedXml /\
  ListView.parseArxivResponse B Fixtures.feedXml = JS.Normal [Fixtures.paper2312] /\
  Permutation (ListView.papersData st') [Fixtures.paper2312] /\
  Permutation (ListView.shownPapers (ListView.papersContainer st'))
              (selected "all" [Fixtures.paper2312]).
Proof.
  intros B earlier url st'.
  assert (Hu : forall u, In u earlier -> unanswered B u = true).
  { intros u Hin. vm_compute in Hin. destruct Hin as [<-|[<-|[]]]; vm_compute; reflexivity. }
  assert (Hf : fetch B url = Response 200 Fixtures.feedXml) by (vm_compute; reflexivity).
  assert (Hp : ListView.parseArxivResponse B Fixtures.feedXml
               = JS.Normal [Fixtures.paper2312]) by (vm_compute; reflexivity).
  assert (Hne : Fixtures.feedXml <> "") by discriminate.
  assert (Hc : ListView.papersContainer Fixtures.page <> None) by discriminate.
  destruct (loadPapers_shows_normalized B earlier [] url Fixtures.feedXml 200
              [Fixtures.paper2312] Fixtures.page Hu Hf eq_refl Hne Hp) as [H1 H2].
  split; [exact Hu|]. split; [exact Hf|]. split; [exact Hp|]. split; [exact H1|].
  exact (proj1 (H2 Hc)).
Defined.

(** X14. When the normalizer throws on the body a proxy answered with, the
    list view falls back to the sample papers: they are what [papersData]
    ends with, and the container ends with the notice 'Using sample data: '
    followed by the message of the exception. *)
Theorem loadPapers_normalizer_throws (B : Browser) (earlier later : list string)
    (url body : string) (status : Z) (error : JS.Exn) (st : ListView.State) :
  (forall u, In u earlier -> unanswered B u = true) ->
  fetch B url = Response status body -> ok status = true -> body <> "" ->
  ListView.parseArxivResponse B body = JS.Throw error ->
  let st' := ListView.loadPapersFrom B (earlier ++ url :: later) st in
  Permutation (ListView.papersData st') (ListView.getSamplePapers B) /\
  (ListView.papersContainer st <> None ->
   ListView.papersContainer st'
   = Some (ListView.ErrorMessage ("Using sample data: " ++ JS.message error))).
Proof.
  intros Hearlier Hurl Hok Hbody Hparse st'. subst st'.
  rewrite (loadPapersFrom_answer B earlier url later status body st
             Hearlier Hurl Hok Hbody), Hparse.
  rewrite papersData_showLoadingIndicator, papersContainer_showLoadingIndicator.
  destruct (useSampleData_state B ("Using sample data: " ++ JS.message error)
              (ListView.showLoadingIndicator true st)) as [Hperm Hcont].
  split; [exact Hperm|]. intros Hc. apply Hcont.
  rewrite papersContainer_showLoadingIndicator. exact Hc.
Qed.

Lemma loadPapers_normalizer_throws_witness :
  let B := Fixtures.bareFirst in
  let url := nth 0 Fixtures.listProxies "" in
  let st' := ListView.loadPapersFrom B ([] ++ url :: []) Fixtures.page in
  fetch B url = Response 200 Fixtures.bareXml /\
  ListView.parseArxivResponse B Fixtures.bareXml = JS.Throw nullTerm /\
  Permutation (ListView.papersData st') (ListView.getSamplePapers B) /\
  ListView.papersContainer st'
  = Some (ListView.ErrorMessage ("Using sample data: " ++ JS.message nullTerm)).
Proof.
  intros B url st'.
  assert (Hf : fetch B url = Response 200 Fixtures.bareXml) by (vm_compute; reflexivity).
  assert (Hp : ListView.parseArxivResponse B Fixtures.bareXml = JS.Throw nullTerm)
    by (vm_compute; reflexivity).
  assert (Hne : Fixtures.bareXml <> "") by discriminate.
  assert (Hc : ListView.papersContainer Fixtures.page <> None) by discriminate.
  destruct (loadPapers_normalizer_throws B [] [] url Fixtures.bareXml 200 nullTerm
              Fixtures.page (fun u (H : In u []) => match H with end)
              Hf eq_refl Hne Hp) as [H1 H2].
  split; [exact Hf|]. split; [exact Hp|]. split; [exact H1 | exact (H2 Hc)].
Defined.

(* ===================================================================== *)
(** ** The sample papers of the list view: [getSamplePapers] *)
(* ===================================================================== *)

Lemma readSamplePapers_read B data :
  asset B = Some data ->
  ListView.readSamplePapers B =
    match Sample.samplePapers data with
    | None => JS.Throw (JS.TypeError "Cannot convert undefined or null to object")
    | Some obj => JS.mapM (ListView.convertSample B) (map snd obj)
    end.
Proof.
  unfold asset, ListView.readSamplePapers.
  destruct (fetch B "data/sample-papers.json") as [e|status body]; [discriminate|].
  destruct (ok status); simpl; [|discriminate]. intros ->. reflexivity.
Qed.

Lemma readSamplePapers_unread B :
  asset B = None -> exists e, ListView.readSamplePapers B = JS.Throw e.
Proof.
  unfold asset, ListView.readSamplePapers.
  destruct (fetch B "data/sample-papers.json") as [e|status body]; [eauto|].
  destruct (ok status); simpl; [|eauto]. intros ->. eauto.
Qed.

Lemma mapM_Throw {A B} (f : A -> JS.Completion B) l :
  Exists (fun x => exists e, f x = JS.Throw e) l -> exists e, JS.mapM f l = JS.Throw e.
Proof.
  induction l as [|x l IH]; intros H; [inversion H|]. simpl.
  destruct (f x) as [y|e] eqn:Ex; [|eauto]. simpl.
  assert (Hl : Exists (fun x => exists e, f x = JS.Throw e) l).
  { inversion H as [? ? [e He]|]; [congruence | assumption]. }
  destruct (IH Hl) as [e ->]. eauto.
Qed.

(** X15. When the asset is read and every date in it is valid,
    [getSamplePapers] returns one paper per record of the asset, in the
    order of its keys: with the id, title and categories of the record, its
    authors with an empty affiliation, and [updated] set to the same instant
    as [published]. *)
Theorem getSamplePapers_follows_asset (B : Browser) (data : Sample.Data)
    (obj : list (string * Sample.Paper)) :
  asset B = Some data -> Sample.samplePapers data = Some obj ->
  Forall (fun kv => present (dateValue B (Sample.published (snd kv))) = true) obj ->
  Forall2 (fun kv p =>
             ListView.id p = Sample.id (snd kv) /\
             ListView.title p = Sample.title (snd kv) /\
             ListView.categories p = Sample.categories (snd kv) /\
             map ListView.name (ListView.authors p) = Sample.authors (snd kv) /\
             Forall (fun a => ListView.affiliation a = "") (ListView.authors p) /\
             ListView.updated p = ListView.published p)
          obj (ListView.getSamplePapers B).
Proof.
  intros Ha Hobj Hdates. unfold ListView.getSamplePapers.
  rewrite (readSamplePapers_read B data Ha), Hobj.
  destruct (mapM_Forall2 (ListView.convertSample B)
              (fun s p =>
                 ListView.id p = Sample.id s /\
                 ListView.title p = Sample.title s /\
                 ListView.categories p = Sample.categories s /\
                 map ListView.name (ListView.authors p) = Sample.authors s /\
                 Forall (fun a => ListView.affiliation a = "") (ListView.authors p) /\
                 ListView.updated p = ListView.published p)
              (map snd obj)) as (papers & -> & HF).
  - apply List.Forall_forall. intros s Hs. apply in_map_iff in Hs as (kv & <- & Hkv).
    rewrite List.Forall_forall in Hdates. specialize (Hdates kv Hkv). cbv beta in Hdates.
    unfold ListView.convertSample, ListView.isoString.
    destruct (dateValue B (Sample.published (snd kv))) as [t|]; [|discriminate].
    cbn [mbind completion_bind JS.bind]. eexists. split; [reflexivity|].
    cbn [ListView.id ListView.title ListView.categories ListView.authors
         ListView.updated ListView.published].
    repeat split.
    + rewrite map_map. cbn [ListView.name]. apply map_id.
    + apply List.Forall_forall. intros a Hin. apply in_map_iff in Hin as (n & <- & _).
      reflexivity.
  - clear -HF. remember (map snd obj) as l eqn:El. revert obj El.
    induction HF as [|s p l ps Hsp _ IH]; intros [|kv obj] El; try discriminate.
    + constructor.
    + injection El as -> ->. constructor; [exact Hsp | apply IH; reflexivity].
Qed.

Lemma getSamplePapers_follows_asset_witness :
  asset Fixtures.withAsset = Some Fixtures.assetData /\
  Forall (fun kv => present (dateValue Fixtures.withAsset
                               (Sample.published (snd kv))) = true)
         [("2401.12345", Fixtures.sample2401)] /\
  Forall2 (fun kv p =>
             ListView.id p = Sample.id (snd kv) /\
             ListView.title p = Sample.title (snd kv) /\
             ListView.categories p = Sample.categories (snd kv) /\
             map ListView.name (ListView.authors p) = Sample.authors (snd kv) /\
             Forall (fun a => ListView.affiliation a = "") (ListView.authors p) /\
             ListView.updated p = ListView.published p)
          [("2401.12345", Fixtures.sample2401)]
          (ListView.getSamplePapers Fixtures.withAsset).
Proof.
  assert (Ha : asset Fixtures.withAsset = Some Fixtures.assetData) by reflexivity.
  assert (Hd : Forall (fun kv => present (dateValue Fixtures.withAsset
                                           (Sample.published (snd kv))) = true)
                      [("2401.12345", Fixtures.sample2401)]) by (repeat constructor).
  split; [exact Ha|]. split; [exact Hd|].
  exact (getSamplePapers_follows_asset Fixtures.withAsset Fixtures.assetData
           [("2401.12345", Fixtures.sample2401)] Ha eq_refl Hd).
Defined.

(** X16. One unreadable date is enough to discard the whole asset: when the
    asset cannot be read, or has no [samplePapers], or holds a record whose
    [published] string is not a valid date, [getSamplePapers] returns the
    literal array with the single paper 2401.12345. *)
Theorem getSamplePapers_literal (B : Browser) :
  (asset B = None \/
   exists data, asset B = Some data /\
     (Sample.samplePapers data = None \/
      exists obj, Sample.samplePapers data = Some obj /\
        Exists (fun kv => dateValue B (Sample.published (snd kv)) = None) obj)) ->
  ListView.getSamplePapers B = ListView.literalSamplePapers.
Proof.
  intros H. unfold ListView.getSamplePapers.
  assert (Hthrow : exists e, ListView.readSamplePapers B = JS.Throw e).
  { destruct H as [Ha|(data & Ha & [Hobj|(obj & Hobj & Hbad)])].
    - exact (readSamplePapers_unread B Ha).
    - rewrite (readSamplePapers_read B data Ha), Hobj. eauto.
    - rewrite (readSamplePapers_read B data Ha), Hobj. apply mapM_Throw.
      apply List.Exists_exists in Hbad as (kv & Hkv & Hnone).
      apply List.Exists_exists. exists (snd kv). split; [apply in_map; exact Hkv|].
      unfold ListView.convertSample, ListView.isoString. rewrite Hnone.
      cbn [mbind completion_bind JS.bind]. eauto. }
  destruct Hthrow as [e ->]. reflexivity.
Qed.

Lemma getSamplePapers_literal_witness :
  asset Fixtures.withUndatedAsset = Some Fixtures.assetUndated /\
  Exists (fun kv => dateValue Fixtures.withUndatedAsset (Sample.published (snd kv)) = None)
         [("2401.12345", Fixtures.sample2401); ("2401.12346", Fixtures.sampleUndated)] /\
  ListView.getSamplePapers Fixtures.withUndatedAsset = ListView.literalSamplePapers.
Proof.
  assert (Ha : asset Fixtures.withUndatedAsset = Some Fixtures.assetUndated) by reflexivity.
  assert (Hbad : Exists (fun kv => dateValue Fixtures.withUndatedAsset
                                     (Sample.published (snd kv)) = None)
                   [("2401.12345", Fixtures.sample2401);
                    ("2401.12346", Fixtures.sampleUndated)]).
  { apply Exists_cons_tl. apply Exists_cons_hd. reflexivity. }
  split; [exact Ha|]. split; [exact Hbad|].
  apply getSamplePapers_literal. right. exists Fixtures.assetUndated.
  split; [exact Ha|]. right. eexists. split; [reflexivity | exact Hbad].
Defined.

(* ===================================================================== *)
(** ** Trimmed titles and summaries *)
(* ===================================================================== *)

Lemma trimStart_fixed s :
  JS.trimStart (JS.trimStart s) = JS.trimStart s.
Proof.
  induction s as [|c s IH]; [reflexivity|]. simpl.
  destruct (JS.isWhiteSpace c) eqn:E; [exact IH|]. simpl. rewrite E. reflexivity.
Qed.

Lemma trimEnd_fixed s : JS.trimEnd (JS.trimEnd s) = JS.trimEnd s.
Proof.
  induction s as [|c s IH]; [reflexivity|]. cbn [JS.trimEnd].
  destruct (JS.trimEnd s) as [|d t] eqn:E.
  - destruct (JS.isWhiteSpace c) eqn:Ec; [reflexivity|]. cbn [JS.trimEnd]. rewrite Ec.
    reflexivity.
  - cbn [JS.trimEnd] in *. rewrite IH. reflexivity.
Qed.

(** Trimming the end leaves alone a start that needs no trimming. *)
Lemma trimStart_trimEnd s :
  JS.trimStart s = s -> JS.trimStart (JS.trimEnd s) = JS.trimEnd s.
Proof.
  destruct s as [|c s]; [reflexivity|]. cbn [JS.trimStart].
  destruct (JS.isWhiteSpace c) eqn:Ec.
  - intros H. exfalso.
    assert (L : forall t, String.length (JS.trimStart t) <= String.length t).
    { induction t as [|x t IHt]; simpl; [lia|].
      destruct (JS.isWhiteSpace x); simpl; lia. }
    pose proof (L s) as Hlen. rewrite H in Hlen. simpl in Hlen. lia.
  - intros _. cbn [JS.trimEnd].
    destruct (JS.trimEnd s); [rewrite Ec|]; cbn [JS.trimStart]; rewrite Ec; reflexivity.
Qed.

Lemma trim_fixed s : JS.trim (JS.trim s) = JS.trim s.
Proof.
  unfold JS.trim.
  rewrite (trimStart_trimEnd (JS.trimStart s) (trimStart_fixed s)).
  apply trimEnd_fixed.
Qed.

Lemma or_else_trim (v : option string) :
  JS.trim (JS.or_else (JS.trim <$> v) "") = JS.or_else (JS.trim <$> v) "".
Proof.
  destruct v as [s|]; [|reflexivity]. cbn [fmap option_fmap option_map JS.or_else].
  destruct (JS.truthy (JS.trim s)); [apply trim_fixed | reflexivity].
Qed.

(** X17. The title and the summary of every record the normalizer returns
    are trimmed: trimming them again changes nothing. *)
Theorem normalized_titles_trimmed (doc : Dom.Document) (papers : list ListView.Paper) :
  ListView.parseArxivDocument doc = JS.Normal papers ->
  Forall (fun p => JS.trim (ListView.title p) = ListView.title p /\
                   JS.trim (ListView.summary p) = ListView.summary p) papers.
Proof.
  intros H. apply mapM_Normal_Forall2 in H.
  induction H as [|e p es ps Hp _ IH]; constructor; [|exact IH].
  unfold ListView.parseEntry in Hp.
  destruct (ListView.filterCsTerms _) as [kept|]; cbn [mbind completion_bind JS.bind] in Hp;
    [|discriminate].
  injection Hp as <-. cbn [ListView.title ListView.summary].
  split; apply or_else_trim.
Qed.

Lemma normalized_titles_trimmed_witness :
  exists papers,
    ListView.parseArxivDocument Fixtures.twoEntryFeed = JS.Normal papers /\
    Forall (fun p => JS.trim (ListView.title p) = ListView.title p /\
                     JS.trim (ListView.summary p) = ListView.summary p) papers.
Proof.
  eexists. split; [vm_compute; reflexivity|].
  apply (normalized_titles_trimmed Fixtures.twoEntryFeed). vm_compute. reflexivity.
Defined.

(* ===================================================================== *)
(** ** What the detail view shows and cites *)
(* ===================================================================== *)

Lemma or_else_nonempty (v : option string) (d : string) :
  d <> "" -> JS.or_else v d <> "".
Proof.
  intros Hd. destruct v as [s|]; [|exact Hd]. unfold JS.or_else, JS.truthy.
  destruct (String.eqb_spec s ""); [exact Hd | assumption].
Qed.

(** What [showDetails] displays comes from the first entry of the document. *)
Lemma showDetails_Normal B id text st :
  DetailView.showDetails B id text = JS.Normal st ->
  exists entry rest,
    Dom.docGetElementsByTagName "entry" (parseFromString B text) = entry :: rest /\
    st = {| DetailView.paperDetail := DetailView.Details
              {| DetailView.title :=
                   JS.or_else (DetailView.firstText "title" entry) "No title";
                 DetailView.authors :=
                   map (fun author =>
                          JS.or_else (DetailView.firstText "name" author) "Unknown author")
                       (Dom.getElementsByTagName "author" entry);
                 DetailView.published :=
                   toLocaleDateString B
                     (dateValue B (JS.or_else (DetailView.firstText "published" entry)
                                              "Unknown date"));
                 DetailView.summary :=
                   JS.or_else (DetailView.firstText "summary" entry)
                              "No summary available";
                 DetailView.pdfLink :=
                   JS.or_else (DetailView.findPdfLink entry)
                              ("https://arxiv.org/pdf/" ++ id ++ ".pdf") |};
            DetailView.citationButtons :=
              Some {| DetailView.citeId := id;
                      DetailView.citeTitle :=
                        JS.or_else (DetailView.firstText "title" entry) "No title";
                      DetailView.citeAuthors :=
                        map (fun author =>
                               JS.or_else (DetailView.firstText "name" author)
                                          "Unknown author")
                            (Dom.getElementsByTagName "author" entry);
                      DetailView.citePublished :=
                        JS.or_else (DetailView.firstText "published" entry)
                                   "Unknown date" |} |}.
Proof.
  unfold DetailView.showDetails.
  destruct (Nat.ltb 0 _); [discriminate|].
  destruct (Dom.docGetElementsByTagName "entry" (parseFromString B text)) as [|entry rest];
    [discriminate|].
  intros H. injection H as <-. exists entry, rest. split; reflexivity.
Qed.

(** X18. A paper read from the API is never shown with an empty field: its
    title, its summary, the target of "View PDF" and each of its author
    names are non-empty, and so is the date handed to the citation buttons
    (a missing element is replaced by its placeholder, a missing PDF link by
    the URL made from the id). *)
Theorem shown_details_have_no_empty_field (B : Browser) (id text : string)
    (st : DetailView.State) :
  DetailView.showDetails B id text = JS.Normal st ->
  exists paper c,
    DetailView.paperDetail st = DetailView.Details paper /\
    DetailView.citationButtons st = Some c /\
    DetailView.title paper <> "" /\ DetailView.summary paper <> "" /\
    DetailView.pdfLink paper <> "" /\
    Forall (fun name => name <> "") (DetailView.authors paper) /\
    DetailView.citePublished c <> "".
Proof.
  intros H. apply showDetails_Normal in H as (entry & rest & _ & ->).
  eexists. eexists. split; [reflexivity|]. split; [reflexivity|].
  cbn [DetailView.title DetailView.summary DetailView.pdfLink DetailView.authors
       DetailView.citePublished].
  split; [apply or_else_nonempty; discriminate|].
  split; [apply or_else_nonempty; discriminate|].
  split; [apply or_else_nonempty; discriminate|].
  split; [|apply or_else_nonempty; discriminate].
  apply List.Forall_forall. intros name Hin. apply in_map_iff in Hin as (a & <- & _).
  apply or_else_nonempty. discriminate.
Qed.

Lemma shown_details_have_no_empty_field_witness :
  exists st paper c,
    DetailView.showDetails Fixtures.errorAll "abc" Fixtures.errorFeedXml = JS.Normal st /\
    DetailView.paperDetail st = DetailView.Details paper /\
    DetailView.citationButtons st = Some c /\
    DetailView.title paper <> "" /\ DetailView.summary paper <> "" /\
    DetailView.pdfLink paper <> "" /\
    Forall (fun name => name <> "") (DetailView.authors paper) /\
    DetailView.citePublished c <> "".
Proof.
  eexists.
  assert (H : DetailView.showDetails Fixtures.errorAll "abc" Fixtures.errorFeedXml
              = JS.Normal _) by (vm_compute; reflexivity).
  destruct (shown_details_have_no_empty_field Fixtures.errorAll "abc"
              Fixtures.errorFeedXml _ H) as (paper & c & H').
  exists paper, c. split; [exact H | exact H'].
Defined.












